(** * The IMU and attitude plugin of mavros (src/plugins/imu.cpp)

    A shallow embedding of [mavros::std_plugins::IMUPlugin]: the plugin's
    members are a record, its handlers are computations in a small
    state-and-output monad, and what the plugin hands to the rest of the
    node (publications, UAS updates, log requests) is a list of effects in
    program order.  A C++ [double] is a binary64 primitive float, so the
    unit coefficients and the covariance builder compute as they do in the
    program. *)

From Stdlib Require Import ZArith String.
From Stdlib Require Import Floats.PrimFloat Numbers.Cyclic.Int63.Uint63.
From stdpp Require Import base list.

Set Warnings "-inexact-float".
Local Open Scope Z_scope.

(** ** Numbers *)

(** [double]: IEEE 754 binary64. *)
Abbreviation double := PrimFloat.float.

(** Conversion of a signed integer field to [double]; exact for the 16-bit
    fields of RAW_IMU, SCALED_IMU and SCALED_PRESSURE. *)
Definition double_of_int (z : Z) : double :=
  if z <? 0 then PrimFloat.opp (PrimFloat.of_uint63 (Uint63.of_Z (- z)))
  else PrimFloat.of_uint63 (Uint63.of_Z z).

(** ** Unit coefficients (imu.cpp, lines 32-48) *)

Definition GAUSS_TO_TESLA : double := 1.0e-4%float.
Definition MILLIT_TO_TESLA : double := 1000.0%float.
Definition MILLIRS_TO_RADSEC : double := 1.0e-3%float.
Definition MILLIG_TO_MS2 : double := (9.80665 / 1000.0)%float.
Definition MILLIBAR_TO_PASCAL : double := 1.0e2%float.

(** ** Eigen and ROS message types *)

Record Vector3d := mkVector3d { vx : double; vy : double; vz : double }.

(** [Eigen::Quaterniond (w, x, y, z)]. *)
Record Quaterniond := mkQuaterniond
  { qw : double; qx : double; qy : double; qz : double }.

(** [Eigen::Vector3d * double]: the componentwise product. *)
Definition vscale (v : Vector3d) (c : double) : Vector3d :=
  mkVector3d (vx v * c)%float (vy v * c)%float (vz v * c)%float.

(** [Vector3d::setZero ()]. *)
Definition Vector3d_Zero : Vector3d := mkVector3d 0%float 0%float 0%float.

(** [ftf::Covariance3d] is [boost::array<double, 9>], row-major. *)
Definition Covariance3d := list double.

(** The device time given to the time synchroniser: [time_boot_ms] is a
    [uint32_t] in milliseconds, [time_usec] a [uint64_t] in microseconds. *)
Inductive DeviceTime :=
| boot_ms (t : Z)
| usec (t : Z).

Record Header := mkHeader
  { seq : Z; stamp : Z; header_frame_id : string }.

(** [sensor_msgs::Imu]. *)
Record Imu := mkImu
  { imu_header : Header;
    orientation : Quaterniond;
    orientation_covariance : Covariance3d;
    angular_velocity : Vector3d;
    angular_velocity_covariance : Covariance3d;
    linear_acceleration : Vector3d;
    linear_acceleration_covariance : Covariance3d }.

(** [sensor_msgs::MagneticField]. *)
Record MagneticField := mkMagneticField
  { magn_header : Header;
    magnetic_field : Vector3d;
    magnetic_field_covariance : Covariance3d }.

(** [sensor_msgs::Temperature]. *)
Record Temperature := mkTemperature
  { temp_header : Header; temperature : double; temp_variance : double }.

(** [sensor_msgs::FluidPressure]. *)
Record FluidPressure := mkFluidPressure
  { atmp_header : Header; fluid_pressure : double; atmp_variance : double }.

(** ** MAVLink messages handled by the plugin

    The [float] fields of the wire format are widened to [double] where the
    program reads them, which is exact; the integer fields are [Z]. *)

Module ATTITUDE.
Record t := mk
  { time_boot_ms : Z;
    roll : double; pitch : double; yaw : double;
    rollspeed : double; pitchspeed : double; yawspeed : double }.
End ATTITUDE.

Module ATTITUDE_QUATERNION.
Record t := mk
  { time_boot_ms : Z;
    q1 : double; q2 : double; q3 : double; q4 : double;
    rollspeed : double; pitchspeed : double; yawspeed : double }.
End ATTITUDE_QUATERNION.

Module HIGHRES_IMU.
Record t := mk
  { time_usec : Z;
    xacc : double; yacc : double; zacc : double;
    xgyro : double; ygyro : double; zgyro : double;
    xmag : double; ymag : double; zmag : double;
    abs_pressure : double; diff_pressure : double; pressure_alt : double;
    temperature : double;
    fields_updated : Z }.
End HIGHRES_IMU.

Module RAW_IMU.
Record t := mk
  { time_usec : Z;
    xacc : Z; yacc : Z; zacc : Z;
    xgyro : Z; ygyro : Z; zgyro : Z;
    xmag : Z; ymag : Z; zmag : Z }.
End RAW_IMU.

Module SCALED_IMU.
Record t := mk
  { time_boot_ms : Z;
    xacc : Z; yacc : Z; zacc : Z;
    xgyro : Z; ygyro : Z; zgyro : Z;
    xmag : Z; ymag : Z; zmag : Z }.
End SCALED_IMU.

Module SCALED_PRESSURE.
Record t := mk
  { time_boot_ms : Z;
    press_abs : double; press_diff : double;
    temperature : Z }.
End SCALED_PRESSURE.

(** ** Collaborators *)

(** The frame-transform library [ftf].  Its code is outside this file of
    the plugin, so the handlers are parametric in it. *)
Class Ftf := mkFtf
  { quaternion_from_rpy : double -> double -> double -> Quaterniond;
    transform_orientation_ned_enu : Quaterniond -> Quaterniond;
    transform_orientation_aircraft_baselink : Quaterniond -> Quaterniond;
    transform_frame_aircraft_baselink : Vector3d -> Vector3d }.

(** The C++ library's [std::pow (double, int)]. *)
Class Libm := mkLibm
  { std_pow : double -> Z -> double }.

(** What the handlers read from [m_uas] while one message is handled. *)
Record UAS := mkUAS
  { is_ardupilotmega : bool;
    synchronized_header : string -> DeviceTime -> Header }.

(** ** Effects: what a handler hands to the node, in program order *)

Inductive Effect :=
| imu_pub_publish (m : Imu)
| imu_raw_pub_publish (m : Imu)
| magn_pub_publish (m : MagneticField)
| temp_pub_publish (m : Temperature)
| press_pub_publish (m : FluidPressure)
| update_attitude_imu_enu (m : Imu)
| update_attitude_imu_ned (m : Imu)
| ROS_INFO_NAMED (name text : string)
| ROS_WARN_THROTTLE_NAMED (period : Z) (name text : string).

(** ** The plugin's members (imu.cpp, lines 115-133) *)

Record IMUPlugin := mkIMUPlugin
  { frame_id : string;
    has_hr_imu : bool;
    has_scaled_imu : bool;
    has_att_quat : bool;
    linear_accel_vec_enu : Vector3d;
    linear_accel_vec_ned : Vector3d;
    linear_acceleration_cov : Covariance3d;
    angular_velocity_cov : Covariance3d;
    orientation_cov : Covariance3d;
    unk_orientation_cov : Covariance3d;
    magnetic_cov : Covariance3d }.

Definition set_has_hr_imu (b : bool) (p : IMUPlugin) : IMUPlugin :=
  mkIMUPlugin (frame_id p) b (has_scaled_imu p) (has_att_quat p)
    (linear_accel_vec_enu p) (linear_accel_vec_ned p)
    (linear_acceleration_cov p) (angular_velocity_cov p) (orientation_cov p)
    (unk_orientation_cov p) (magnetic_cov p).

Definition set_has_scaled_imu (b : bool) (p : IMUPlugin) : IMUPlugin :=
  mkIMUPlugin (frame_id p) (has_hr_imu p) b (has_att_quat p)
    (linear_accel_vec_enu p) (linear_accel_vec_ned p)
    (linear_acceleration_cov p) (angular_velocity_cov p) (orientation_cov p)
    (unk_orientation_cov p) (magnetic_cov p).

Definition set_has_att_quat (b : bool) (p : IMUPlugin) : IMUPlugin :=
  mkIMUPlugin (frame_id p) (has_hr_imu p) (has_scaled_imu p) b
    (linear_accel_vec_enu p) (linear_accel_vec_ned p)
    (linear_acceleration_cov p) (angular_velocity_cov p) (orientation_cov p)
    (unk_orientation_cov p) (magnetic_cov p).

Definition set_linear_accel_vec_enu (v : Vector3d) (p : IMUPlugin) : IMUPlugin :=
  mkIMUPlugin (frame_id p) (has_hr_imu p) (has_scaled_imu p) (has_att_quat p)
    v (linear_accel_vec_ned p)
    (linear_acceleration_cov p) (angular_velocity_cov p) (orientation_cov p)
    (unk_orientation_cov p) (magnetic_cov p).

Definition set_linear_accel_vec_ned (v : Vector3d) (p : IMUPlugin) : IMUPlugin :=
  mkIMUPlugin (frame_id p) (has_hr_imu p) (has_scaled_imu p) (has_att_quat p)
    (linear_accel_vec_enu p) v
    (linear_acceleration_cov p) (angular_velocity_cov p) (orientation_cov p)
    (unk_orientation_cov p) (magnetic_cov p).

Definition set_frame_id (s : string) (p : IMUPlugin) : IMUPlugin :=
  mkIMUPlugin s (has_hr_imu p) (has_scaled_imu p) (has_att_quat p)
    (linear_accel_vec_enu p) (linear_accel_vec_ned p)
    (linear_acceleration_cov p) (angular_velocity_cov p) (orientation_cov p)
    (unk_orientation_cov p) (magnetic_cov p).

Definition set_linear_acceleration_cov (c : Covariance3d) (p : IMUPlugin) : IMUPlugin :=
  mkIMUPlugin (frame_id p) (has_hr_imu p) (has_scaled_imu p) (has_att_quat p)
    (linear_accel_vec_enu p) (linear_accel_vec_ned p)
    c (angular_velocity_cov p) (orientation_cov p)
    (unk_orientation_cov p) (magnetic_cov p).

Definition set_angular_velocity_cov (c : Covariance3d) (p : IMUPlugin) : IMUPlugin :=
  mkIMUPlugin (frame_id p) (has_hr_imu p) (has_scaled_imu p) (has_att_quat p)
    (linear_accel_vec_enu p) (linear_accel_vec_ned p)
    (linear_acceleration_cov p) c (orientation_cov p)
    (unk_orientation_cov p) (magnetic_cov p).

Definition set_orientation_cov (c : Covariance3d) (p : IMUPlugin) : IMUPlugin :=
  mkIMUPlugin (frame_id p) (has_hr_imu p) (has_scaled_imu p) (has_att_quat p)
    (linear_accel_vec_enu p) (linear_accel_vec_ned p)
    (linear_acceleration_cov p) (angular_velocity_cov p) c
    (unk_orientation_cov p) (magnetic_cov p).

Definition set_unk_orientation_cov (c : Covariance3d) (p : IMUPlugin) : IMUPlugin :=
  mkIMUPlugin (frame_id p) (has_hr_imu p) (has_scaled_imu p) (has_att_quat p)
    (linear_accel_vec_enu p) (linear_accel_vec_ned p)
    (linear_acceleration_cov p) (angular_velocity_cov p) (orientation_cov p)
    c (magnetic_cov p).

Definition set_magnetic_cov (c : Covariance3d) (p : IMUPlugin) : IMUPlugin :=
  mkIMUPlugin (frame_id p) (has_hr_imu p) (has_scaled_imu p) (has_att_quat p)
    (linear_accel_vec_enu p) (linear_accel_vec_ned p)
    (linear_acceleration_cov p) (angular_velocity_cov p) (orientation_cov p)
    (unk_orientation_cov p) c.

(** The parameters read by [initialize]; [None] is a parameter that is not
    set, for which [param] takes the default. *)
Record Params := mkParams
  { param_frame_id : option string;
    param_linear_acceleration_stdev : option double;
    param_angular_velocity_stdev : option double;
    param_orientation_stdev : option double;
    param_magnetic_stdev : option double }.

Definition param {A} (value : option A) (dflt : A) : A := default dflt value.

Definition M_PI : double := 3.14159265358979323846%float.

(** ** The handler monad: plugin state threaded, effects appended *)

Definition M (A : Type) : Type := IMUPlugin -> A * IMUPlugin * list Effect.

#[export] Instance M_ret : MRet M := fun A a p => (a, p, []).

#[export] Instance M_bind : MBind M := fun A B f m p =>
  let '(a, p1, out1) := m p in
  let '(b, p2, out2) := f a p1 in
  (b, p2, out1 ++ out2).

(** Read a member. *)
Definition member {A} (f : IMUPlugin -> A) : M A := fun p => (f p, p, []).

(** Assign to a member. *)
Definition assign (f : IMUPlugin -> IMUPlugin) : M unit := fun p => (tt, f p, []).

(** Hand one effect to the node. *)
Definition emit (e : Effect) : M unit := fun p => (tt, p, [e]).

(** [if (c) body] with no else branch. *)
Definition when (c : bool) (body : M unit) : M unit :=
  if c then body else mret tt.

(** The state and the effects a computation leaves. *)
Definition state_of {A} (r : A * IMUPlugin * list Effect) : IMUPlugin := snd (fst r).
Definition effects_of {A} (r : A * IMUPlugin * list Effect) : list Effect := snd r.

(** ** Helpers (imu.cpp, lines 135-255) *)

Section Plugin.
Context `{ftf : Ftf} `{libm : Libm}.

(** [setup_covariance (cov, stdev)]: the array passed by reference is the
    argument, the array it holds on return is the result. *)
Definition setup_covariance (cov : Covariance3d) (stdev : double) : Covariance3d :=
  let cov := (fun _ => 0%float) <$> cov in
  if (stdev =? 0.0)%float then
    <[0%nat := (-1.0)%float]> cov
  else
    let sq := std_pow stdev 2 in
    <[(0 + 0)%nat := sq]> (<[(3 + 1)%nat := sq]> (<[(6 + 2)%nat := sq]> cov)).

(** [publish_imu_data]: both records are filled from the arguments and from
    the cached acceleration, then stored in the UAS and the base_link ENU
    one is published. *)
Definition publish_imu_data (uas : UAS) (time_boot_ms : Z)
    (orientation_enu orientation_ned : Quaterniond)
    (gyro_enu gyro_ned : Vector3d) : M unit :=
  fid ← member frame_id;
  accel_enu ← member linear_accel_vec_enu;
  accel_ned ← member linear_accel_vec_ned;
  o_cov ← member orientation_cov;
  av_cov ← member angular_velocity_cov;
  la_cov ← member linear_acceleration_cov;
  let imu_enu_msg :=
    {| imu_header := synchronized_header uas fid (boot_ms time_boot_ms);
       orientation := orientation_enu;
       angular_velocity := gyro_enu;
       linear_acceleration := accel_enu;
       orientation_covariance := o_cov;
       angular_velocity_covariance := av_cov;
       linear_acceleration_covariance := la_cov |} in
  let imu_ned_msg :=
    {| imu_header := synchronized_header uas "aircraft" (boot_ms time_boot_ms);
       orientation := orientation_ned;
       angular_velocity := gyro_ned;
       linear_acceleration := accel_ned;
       orientation_covariance := o_cov;
       angular_velocity_covariance := av_cov;
       linear_acceleration_covariance := la_cov |} in
  emit (update_attitude_imu_enu imu_enu_msg);;
  emit (update_attitude_imu_ned imu_ned_msg);;
  emit (imu_pub_publish imu_enu_msg).

(** A default-constructed [geometry_msgs::Quaternion]. *)
Definition Quaternion_default : Quaterniond :=
  mkQuaterniond 0%float 0%float 0%float 0%float.

(** [publish_imu_data_raw]: the readings are saved in the cache before the
    covariances are filled in and the record is published. *)
Definition publish_imu_data_raw (header : Header)
    (gyro accel_enu accel_ned : Vector3d) : M unit :=
  assign (set_linear_accel_vec_enu accel_enu);;
  assign (set_linear_accel_vec_ned accel_ned);;
  unk_cov ← member unk_orientation_cov;
  av_cov ← member angular_velocity_cov;
  la_cov ← member linear_acceleration_cov;
  emit (imu_raw_pub_publish
    {| imu_header := header;
       orientation := Quaternion_default;
       angular_velocity := gyro;
       linear_acceleration := accel_enu;
       orientation_covariance := unk_cov;
       angular_velocity_covariance := av_cov;
       linear_acceleration_covariance := la_cov |}).

Definition publish_mag (header : Header) (mag_field : Vector3d) : M unit :=
  m_cov ← member magnetic_cov;
  emit (magn_pub_publish
    {| magn_header := header;
       magnetic_field := mag_field;
       magnetic_field_covariance := m_cov |}).

(** ** Message handlers (imu.cpp, lines 257-495) *)

Definition handle_attitude (uas : UAS) (att : ATTITUDE.t) : M unit :=
  q ← member has_att_quat;
  if q : bool then mret tt else
  let ned_aircraft_orientation :=
    quaternion_from_rpy (ATTITUDE.roll att) (ATTITUDE.pitch att) (ATTITUDE.yaw att) in
  let gyro_ned :=
    mkVector3d (ATTITUDE.rollspeed att) (ATTITUDE.pitchspeed att) (ATTITUDE.yawspeed att) in
  let enu_baselink_orientation :=
    transform_orientation_aircraft_baselink
      (transform_orientation_ned_enu ned_aircraft_orientation) in
  let gyro_enu := transform_frame_aircraft_baselink gyro_ned in
  publish_imu_data uas (ATTITUDE.time_boot_ms att)
    enu_baselink_orientation ned_aircraft_orientation gyro_enu gyro_ned.

Definition handle_attitude_quaternion (uas : UAS) (att_q : ATTITUDE_QUATERNION.t) : M unit :=
  q ← member has_att_quat;
  when (negb q) (emit (ROS_INFO_NAMED "imu" "IMU: Attitude quaternion IMU detected!"));;
  assign (set_has_att_quat true);;
  let ned_aircraft_orientation :=
    mkQuaterniond (ATTITUDE_QUATERNION.q1 att_q) (ATTITUDE_QUATERNION.q2 att_q)
      (ATTITUDE_QUATERNION.q3 att_q) (ATTITUDE_QUATERNION.q4 att_q) in
  let gyro_ned :=
    mkVector3d (ATTITUDE_QUATERNION.rollspeed att_q)
      (ATTITUDE_QUATERNION.pitchspeed att_q) (ATTITUDE_QUATERNION.yawspeed att_q) in
  let enu_baselink_orientation :=
    transform_orientation_aircraft_baselink
      (transform_orientation_ned_enu ned_aircraft_orientation) in
  let gyro_enu := transform_frame_aircraft_baselink gyro_ned in
  publish_imu_data uas (ATTITUDE_QUATERNION.time_boot_ms att_q)
    enu_baselink_orientation ned_aircraft_orientation gyro_enu gyro_ned.

(** [fields_updated & mask], as a condition. *)
Definition bits_set (fields mask : Z) : bool := negb (Z.land fields mask =? 0).

Definition handle_highres_imu (uas : UAS) (imu_hr : HIGHRES_IMU.t) : M unit :=
  hr ← member has_hr_imu;
  when (negb hr) (emit (ROS_INFO_NAMED "imu" "IMU: High resolution IMU detected!"));;
  assign (set_has_hr_imu true);;
  fid ← member frame_id;
  let header := synchronized_header uas fid (usec (HIGHRES_IMU.time_usec imu_hr)) in
  let fields := HIGHRES_IMU.fields_updated imu_hr in
  when (bits_set fields (Z.lor (Z.shiftl 7 3) (Z.shiftl 7 0)))
    (let gyro := transform_frame_aircraft_baselink
       (mkVector3d (HIGHRES_IMU.xgyro imu_hr) (HIGHRES_IMU.ygyro imu_hr)
          (HIGHRES_IMU.zgyro imu_hr)) in
     let accel_ned :=
       mkVector3d (HIGHRES_IMU.xacc imu_hr) (HIGHRES_IMU.yacc imu_hr)
         (HIGHRES_IMU.zacc imu_hr) in
     let accel_enu := transform_frame_aircraft_baselink accel_ned in
     publish_imu_data_raw header gyro accel_enu accel_ned);;
  when (bits_set fields (Z.shiftl 7 6))
    (let mag_field := transform_frame_aircraft_baselink
       (vscale (mkVector3d (HIGHRES_IMU.xmag imu_hr) (HIGHRES_IMU.ymag imu_hr)
                  (HIGHRES_IMU.zmag imu_hr)) GAUSS_TO_TESLA) in
     publish_mag header mag_field);;
  when (bits_set fields (Z.shiftl 1 9))
    (emit (press_pub_publish
       {| atmp_header := header;
          fluid_pressure := (HIGHRES_IMU.abs_pressure imu_hr * MILLIBAR_TO_PASCAL)%float;
          atmp_variance := 0%float |}));;
  when (bits_set fields (Z.shiftl 1 12))
    (emit (temp_pub_publish
       {| temp_header := header;
          temperature := HIGHRES_IMU.temperature imu_hr;
          temp_variance := 0%float |})).

Definition handle_raw_imu (uas : UAS) (imu_raw : RAW_IMU.t) : M unit :=
  hr ← member has_hr_imu;
  sc ← member has_scaled_imu;
  if (hr : bool) || sc then mret tt else
  fid ← member frame_id;
  let header := synchronized_header uas fid (usec (RAW_IMU.time_usec imu_raw)) in
  let gyro := transform_frame_aircraft_baselink
    (vscale (mkVector3d (double_of_int (RAW_IMU.xgyro imu_raw))
               (double_of_int (RAW_IMU.ygyro imu_raw))
               (double_of_int (RAW_IMU.zgyro imu_raw))) MILLIRS_TO_RADSEC) in
  let accel_ned :=
    mkVector3d (double_of_int (RAW_IMU.xacc imu_raw))
      (double_of_int (RAW_IMU.yacc imu_raw)) (double_of_int (RAW_IMU.zacc imu_raw)) in
  let accel_enu := transform_frame_aircraft_baselink accel_ned in
  let accel_ned :=
    if is_ardupilotmega uas then vscale accel_ned MILLIG_TO_MS2 else accel_ned in
  let accel_enu :=
    if is_ardupilotmega uas then vscale accel_enu MILLIG_TO_MS2 else accel_enu in
  publish_imu_data_raw header gyro accel_enu accel_ned;;
  when (negb (is_ardupilotmega uas))
    (emit (ROS_WARN_THROTTLE_NAMED 60 "imu"
       "IMU: linear acceleration on RAW_IMU known on APM only.");;
     emit (ROS_WARN_THROTTLE_NAMED 60 "imu"
       "IMU: ~imu/data_raw stores unscaled raw acceleration report.");;
     assign (set_linear_accel_vec_enu Vector3d_Zero);;
     assign (set_linear_accel_vec_ned Vector3d_Zero));;
  let mag_field := transform_frame_aircraft_baselink
    (vscale (mkVector3d (double_of_int (RAW_IMU.xmag imu_raw))
               (double_of_int (RAW_IMU.ymag imu_raw))
               (double_of_int (RAW_IMU.zmag imu_raw))) MILLIT_TO_TESLA) in
  publish_mag header mag_field.

Definition handle_scaled_imu (uas : UAS) (imu_raw : SCALED_IMU.t) : M unit :=
  hr ← member has_hr_imu;
  if hr : bool then mret tt else
  sc ← member has_scaled_imu;
  when (negb sc) (emit (ROS_INFO_NAMED "imu" "IMU: Scaled IMU message used."));;
  assign (set_has_scaled_imu true);;
  fid ← member frame_id;
  let header := synchronized_header uas fid (boot_ms (SCALED_IMU.time_boot_ms imu_raw)) in
  let gyro := transform_frame_aircraft_baselink
    (vscale (mkVector3d (double_of_int (SCALED_IMU.xgyro imu_raw))
               (double_of_int (SCALED_IMU.ygyro imu_raw))
               (double_of_int (SCALED_IMU.zgyro imu_raw))) MILLIRS_TO_RADSEC) in
  let accel_ned :=
    vscale (mkVector3d (double_of_int (SCALED_IMU.xacc imu_raw))
              (double_of_int (SCALED_IMU.yacc imu_raw))
              (double_of_int (SCALED_IMU.zacc imu_raw))) MILLIG_TO_MS2 in
  let accel_enu := transform_frame_aircraft_baselink accel_ned in
  publish_imu_data_raw header gyro accel_enu accel_ned;;
  let mag_field := transform_frame_aircraft_baselink
    (vscale (mkVector3d (double_of_int (SCALED_IMU.xmag imu_raw))
               (double_of_int (SCALED_IMU.ymag imu_raw))
               (double_of_int (SCALED_IMU.zmag imu_raw))) MILLIT_TO_TESLA) in
  publish_mag header mag_field.

Definition handle_scaled_pressure (uas : UAS) (press : SCALED_PRESSURE.t) : M unit :=
  hr ← member has_hr_imu;
  if hr : bool then mret tt else
  fid ← member frame_id;
  let header := synchronized_header uas fid (boot_ms (SCALED_PRESSURE.time_boot_ms press)) in
  emit (temp_pub_publish
    {| temp_header := header;
       temperature := (double_of_int (SCALED_PRESSURE.temperature press) / 100.0)%float;
       temp_variance := 0%float |});;
  emit (press_pub_publish
    {| atmp_header := header;
       fluid_pressure := (SCALED_PRESSURE.press_abs press * 100.0)%float;
       atmp_variance := 0%float |}).

Definition connection_cb (connected : bool) : M unit :=
  assign (set_has_hr_imu false);;
  assign (set_has_scaled_imu false);;
  assign (set_has_att_quat false).

(** ** Construction and initialisation (imu.cpp, lines 60-101) *)

(** The constructor clears the three flags and default-constructs the frame
    name; the vectors and arrays keep what their storage holds. *)
Definition IMUPlugin_ctor (storage : IMUPlugin) : IMUPlugin :=
  set_has_att_quat false
    (set_has_scaled_imu false (set_has_hr_imu false (set_frame_id EmptyString storage))).

(** [initialize]: the frame name and the five covariance arrays.  The
    advertised publishers are the effect constructors. *)
Definition initialize (params : Params) : M unit :=
  assign (set_frame_id (param (param_frame_id params) "base_link"%string));;
  let linear_stdev := param (param_linear_acceleration_stdev params) 0.0003%float in
  let angular_stdev :=
    param (param_angular_velocity_stdev params) (0.02 * (M_PI / 180.0))%float in
  let orientation_stdev := param (param_orientation_stdev params) 1.0%float in
  let mag_stdev := param (param_magnetic_stdev params) 0.0%float in
  c ← member linear_acceleration_cov;
  assign (set_linear_acceleration_cov (setup_covariance c linear_stdev));;
  c ← member angular_velocity_cov;
  assign (set_angular_velocity_cov (setup_covariance c angular_stdev));;
  c ← member orientation_cov;
  assign (set_orientation_cov (setup_covariance c orientation_stdev));;
  c ← member magnetic_cov;
  assign (set_magnetic_cov (setup_covariance c mag_stdev));;
  c ← member unk_orientation_cov;
  assign (set_unk_orientation_cov (setup_covariance c 0.0%float)).

(** ** Delivery: one decoded message or connection change at a time *)

Inductive Inbound :=
| msg_ATTITUDE (att : ATTITUDE.t)
| msg_ATTITUDE_QUATERNION (att_q : ATTITUDE_QUATERNION.t)
| msg_HIGHRES_IMU (imu_hr : HIGHRES_IMU.t)
| msg_RAW_IMU (imu_raw : RAW_IMU.t)
| msg_SCALED_IMU (imu_raw : SCALED_IMU.t)
| msg_SCALED_PRESSURE (press : SCALED_PRESSURE.t)
| connection_changed (connected : bool).

Definition deliver (uas : UAS) (i : Inbound) : M unit :=
  match i with
  | msg_ATTITUDE att => handle_attitude uas att
  | msg_ATTITUDE_QUATERNION att_q => handle_attitude_quaternion uas att_q
  | msg_HIGHRES_IMU imu_hr => handle_highres_imu uas imu_hr
  | msg_RAW_IMU imu_raw => handle_raw_imu uas imu_raw
  | msg_SCALED_IMU imu_raw => handle_scaled_imu uas imu_raw
  | msg_SCALED_PRESSURE press => handle_scaled_pressure uas press
  | connection_changed connected => connection_cb connected
  end.

(** A run: each delivery comes with the UAS as it is at that moment. *)
Fixpoint run (deliveries : list (UAS * Inbound)) : M unit :=
  match deliveries with
  | [] => mret tt
  | (uas, i) :: rest => deliver uas i;; run rest
  end.

Definition is_connection_changed (i : Inbound) : bool :=
  match i with connection_changed _ => true | _ => false end.

(** The guard at the head of each handler: [true] when the handler goes
    past its early return. *)
Definition accepted (p : IMUPlugin) (i : Inbound) : bool :=
  match i with
  | msg_ATTITUDE _ => negb (has_att_quat p)
  | msg_ATTITUDE_QUATERNION _ => true
  | msg_HIGHRES_IMU _ => true
  | msg_RAW_IMU _ => negb (has_hr_imu p || has_scaled_imu p)
  | msg_SCALED_IMU _ => negb (has_hr_imu p)
  | msg_SCALED_PRESSURE _ => negb (has_hr_imu p)
  | connection_changed _ => true
  end.

(** A dropped delivery: no effect and no change of state. *)
Definition dropped (uas : UAS) (p : IMUPlugin) (i : Inbound) : Prop :=
  deliver uas i p = (tt, p, []).

(** The attitude-bearing messages and the inertial ones. *)
Definition is_attitude (i : Inbound) : bool :=
  match i with
  | msg_ATTITUDE _ | msg_ATTITUDE_QUATERNION _ => true
  | _ => false
  end.

Definition is_inertial (i : Inbound) : bool :=
  match i with
  | msg_HIGHRES_IMU _ | msg_RAW_IMU _ | msg_SCALED_IMU _ => true
  | _ => false
  end.

(** Log requests, as opposed to the records handed to a publisher or to
    the UAS. *)
Definition is_log (e : Effect) : bool :=
  match e with
  | ROS_INFO_NAMED _ _ | ROS_WARN_THROTTLE_NAMED _ _ _ => true
  | _ => false
  end.

(** The records a handler dispatched, in order. *)
Definition dispatched (out : list Effect) : list Effect :=
  List.filter (fun e => negb (is_log e)) out.

(** The cached linear-acceleration pair, ENU first. *)
Definition cached_linear_accel (p : IMUPlugin) : Vector3d * Vector3d :=
  (linear_accel_vec_enu p, linear_accel_vec_ned p).

End Plugin.

(** ** Observers of states and effect lists *)

(** What [initialize] configures and no handler is meant to change: the
    frame name and the five covariance arrays. *)
Definition configuration (p : IMUPlugin)
  : string * (Covariance3d * Covariance3d * Covariance3d * Covariance3d * Covariance3d) :=
  (frame_id p,
   (linear_acceleration_cov p, angular_velocity_cov p, orientation_cov p,
    unk_orientation_cov p, magnetic_cov p)).

(** An effect carries the covariance arrays of plugin [p]: the attitude
    records the three configured ones, the data_raw record the unknown
    orientation array, the magnetic record the magnetic one. *)
Definition carries_covariances_of (p : IMUPlugin) (e : Effect) : Prop :=
  match e with
  | imu_pub_publish m | update_attitude_imu_enu m | update_attitude_imu_ned m =>
      orientation_covariance m = orientation_cov p /\
      angular_velocity_covariance m = angular_velocity_cov p /\
      linear_acceleration_covariance m = linear_acceleration_cov p
  | imu_raw_pub_publish m =>
      orientation_covariance m = unk_orientation_cov p /\
      angular_velocity_covariance m = angular_velocity_cov p /\
      linear_acceleration_covariance m = linear_acceleration_cov p
  | magn_pub_publish m => magnetic_field_covariance m = magnetic_cov p
  | _ => True
  end.

(** The five covariance members are arrays of nine entries. *)
Definition arrays_sized (p : IMUPlugin) : Prop :=
  length (linear_acceleration_cov p) = 9%nat /\
  length (angular_velocity_cov p) = 9%nat /\
  length (orientation_cov p) = 9%nat /\
  length (unk_orientation_cov p) = 9%nat /\
  length (magnetic_cov p) = 9%nat.

(** How many [ROS_INFO] requests with a given text an effect list holds. *)
Definition info_count (text : string) (out : list Effect) : nat :=
  length (List.filter
            (fun e => match e with
                      | ROS_INFO_NAMED _ t => String.eqb t text
                      | _ => false
                      end) out).

(** ** A concrete set of collaborators

    An idealised frame library (the static aircraft to base_link rotation
    is the half turn about the x axis, the NED to ENU rotation swaps x and
    y and negates z), a [pow] by repeated multiplication, and a UAS whose
    time offset is zero.  The examples and the closed instances of the
    theorems are evaluated with them. *)

Module Sample.

Local Open Scope float_scope.

(** Hamilton product of two quaternions. *)
Definition qmul (a b : Quaterniond) : Quaterniond :=
  mkQuaterniond
    (qw a * qw b - qx a * qx b - qy a * qy b - qz a * qz b)
    (qw a * qx b + qx a * qw b + qy a * qz b - qz a * qy b)
    (qw a * qy b - qx a * qz b + qy a * qw b + qz a * qx b)
    (qw a * qz b + qx a * qy b - qy a * qx b + qz a * qw b).

(** Truncated series, enough for angles of a quarter turn or less. *)
Definition series_sin (x : double) : double :=
  let x2 := x * x in
  x * (1 - x2 / 6 * (1 - x2 / 20 * (1 - x2 / 42 * (1 - x2 / 72)))).

Definition series_cos (x : double) : double :=
  let x2 := x * x in
  1 - x2 / 2 * (1 - x2 / 12 * (1 - x2 / 30 * (1 - x2 / 56))).

Definition sample_quaternion_from_rpy (roll pitch yaw : double) : Quaterniond :=
  let half a := a / 2 in
  qmul (qmul (mkQuaterniond (series_cos (half yaw)) 0 0 (series_sin (half yaw)))
             (mkQuaterniond (series_cos (half pitch)) 0 (series_sin (half pitch)) 0))
       (mkQuaterniond (series_cos (half roll)) (series_sin (half roll)) 0 0).

Definition NED_ENU_Q : Quaterniond :=
  mkQuaterniond 0 (PrimFloat.sqrt 0.5) (PrimFloat.sqrt 0.5) 0.

Definition AIRCRAFT_BASELINK_Q : Quaterniond := mkQuaterniond 0 1 0 0.

Definition sample_ftf : Ftf :=
  {| quaternion_from_rpy := sample_quaternion_from_rpy;
     transform_orientation_ned_enu := fun q => qmul NED_ENU_Q q;
     transform_orientation_aircraft_baselink := fun q => qmul q AIRCRAFT_BASELINK_Q;
     transform_frame_aircraft_baselink :=
       fun v => mkVector3d (vx v) (- vy v) (- vz v) |}.

(** [x] to an integer power, by repeated multiplication. *)
Definition pow_int (x : double) (n : Z) : double :=
  match n with
  | Z0 => 1
  | Zpos k => Pos.iter_op PrimFloat.mul k x
  | Zneg k => 1 / Pos.iter_op PrimFloat.mul k x
  end.

Definition sample_libm : Libm := {| std_pow := pow_int |}.

Definition sample_uas (apm : bool) : UAS :=
  {| is_ardupilotmega := apm;
     synchronized_header := fun frame time =>
       {| seq := 0%Z;
          stamp := match time with
                   | boot_ms t => (t * 1000000)%Z
                   | usec t => (t * 1000)%Z
                   end;
          header_frame_id := frame |} |}.

Definition zero_storage : IMUPlugin :=
  {| frame_id := EmptyString;
     has_hr_imu := true; has_scaled_imu := true; has_att_quat := true;
     linear_accel_vec_enu := Vector3d_Zero;
     linear_accel_vec_ned := Vector3d_Zero;
     linear_acceleration_cov := replicate 9 0;
     angular_velocity_cov := replicate 9 0;
     orientation_cov := replicate 9 0;
     unk_orientation_cov := replicate 9 0;
     magnetic_cov := replicate 9 0 |}.

Definition default_params : Params :=
  {| param_frame_id := None;
     param_linear_acceleration_stdev := None;
     param_angular_velocity_stdev := None;
     param_orientation_stdev := None;
     param_magnetic_stdev := None |}.

(** The plugin after construction and [initialize] with no parameter set. *)
Definition plugin0 : IMUPlugin :=
  state_of (@initialize sample_libm default_params (IMUPlugin_ctor zero_storage)).

Definition attitude1 : ATTITUDE.t :=
  ATTITUDE.mk 1000 0.1 0.2 0.3 0.01 0.02 0.03.

Definition attitude_quaternion1 : ATTITUDE_QUATERNION.t :=
  ATTITUDE_QUATERNION.mk 1000 1 0 0 0 0.01 0.02 0.03.

(** All of acceleration, rate, magnetometer, pressure and temperature
    present: bits 0-8, 9 and 12. *)
Definition highres1 : HIGHRES_IMU.t :=
  HIGHRES_IMU.mk 2000000 1 (-2) (-3) 0.1 0.2 0.3 1 0.5 0.25 1013.25 0 0 25 0x13ff.

Definition raw1 : RAW_IMU.t := RAW_IMU.mk 3000000 1 2 3 10 20 30 100 200 300.

Definition scaled1 : SCALED_IMU.t := SCALED_IMU.mk 4000 1000 0 (-1000) 10 20 30 100 200 300.

Definition pressure1 : SCALED_PRESSURE.t := SCALED_PRESSURE.mk 5000 1013.25 0 2500.

(** Deliveries with no connection change among them. *)
Definition later : list (UAS * Inbound) :=
  [(sample_uas false, msg_ATTITUDE attitude1);
   (sample_uas true, msg_SCALED_PRESSURE pressure1);
   (sample_uas false, msg_ATTITUDE_QUATERNION attitude_quaternion1)].

(** A HIGHRES_IMU message with no field marked as updated. *)
Definition highres_empty : HIGHRES_IMU.t :=
  HIGHRES_IMU.mk 2500000 1 (-2) (-3) 0.1 0.2 0.3 1 0.5 0.25 1013.25 0 0 25 0.

(** Storage with arbitrary contents: flags set, arrays of nine non-zero
    entries, vectors that are not zero. *)
Definition dirty_storage : IMUPlugin :=
  {| frame_id := "stale"%string;
     has_hr_imu := true; has_scaled_imu := false; has_att_quat := true;
     linear_accel_vec_enu := mkVector3d 7 8 9;
     linear_accel_vec_ned := mkVector3d 7 (-8) (-9);
     linear_acceleration_cov := replicate 9 5;
     angular_velocity_cov := replicate 9 6;
     orientation_cov := replicate 9 7;
     unk_orientation_cov := replicate 9 8;
     magnetic_cov := replicate 9 9 |}.

(** The plugin built on [dirty_storage]: its cached pair is not zero. *)
Definition plugin_dirty : IMUPlugin :=
  state_of (@initialize sample_libm default_params (IMUPlugin_ctor dirty_storage)).

(** The orientation deviation configured as 0.5, and as 0. *)
Definition params_half : Params :=
  {| param_frame_id := None;
     param_linear_acceleration_stdev := None;
     param_angular_velocity_stdev := None;
     param_orientation_stdev := Some 0.5;
     param_magnetic_stdev := None |}.

Definition params_zero : Params :=
  {| param_frame_id := None;
     param_linear_acceleration_stdev := None;
     param_angular_velocity_stdev := None;
     param_orientation_stdev := Some 0;
     param_magnetic_stdev := None |}.

(** The zeroed storage with the two vectors of [dirty_storage]. *)
Definition clean_storage : IMUPlugin :=
  set_linear_accel_vec_ned (mkVector3d 7 (-8) (-9))
    (set_linear_accel_vec_enu (mkVector3d 7 8 9) zero_storage).

End Sample.

(** * Properties *)

(** Unfold a handler down to pairs of states and effect lists. *)
Ltac run_handler :=
  unfold dropped, deliver, handle_attitude, handle_attitude_quaternion,
    handle_highres_imu, handle_raw_imu, handle_scaled_imu,
    handle_scaled_pressure, connection_cb, publish_imu_data,
    publish_imu_data_raw, publish_mag, when, member, assign, emit,
    state_of, effects_of;
  unfold mbind, M_bind, mret, M_ret; cbn.


(** ** The covariance builder *)

Section Covariance.
Context `{libm : Libm}.

(** C7: [setup_covariance] returns the unknown sentinel when
    [stdev == 0.0], and otherwise the row-major matrix with the square of
    [stdev], as [std::pow (stdev, 2)] returns it, at indices 0, 4 and 8 and
    zero elsewhere; with [stdev = 2.0] the diagonal entries are
    [std::pow (2.0, 2)], which is 4 where the library is exact at that
    point. *)
Theorem setup_covariance_spec (cov : Covariance3d) (stdev : double) :
  length cov = 9%nat ->
  ((stdev =? 0.0)%float = true ->
     setup_covariance cov stdev
     = [(-1.0)%float; 0%float; 0%float; 0%float; 0%float; 0%float;
        0%float; 0%float; 0%float]) /\
  ((stdev =? 0.0)%float = false ->
     setup_covariance cov stdev
     = [std_pow stdev 2; 0%float; 0%float;
        0%float; std_pow stdev 2; 0%float;
        0%float; 0%float; std_pow stdev 2]) /\
  setup_covariance cov 2.0%float
  = [std_pow 2.0%float 2; 0%float; 0%float;
     0%float; std_pow 2.0%float 2; 0%float;
     0%float; 0%float; std_pow 2.0%float 2] /\
  (std_pow 2.0%float 2 = 4%float ->
   setup_covariance cov 2.0%float
   = [4%float; 0%float; 0%float; 0%float; 4%float; 0%float;
      0%float; 0%float; 4%float]).
Proof.
  intros Hlen.
  do 9 (destruct cov as [|? cov]; [discriminate Hlen|]).
  destruct cov; [|discriminate Hlen].
  unfold setup_covariance. cbn [fmap list_fmap].
  repeat split.
  - intros ->. reflexivity.
  - intros ->. reflexivity.
  - intros Hfour.
    change ((2.0 =? 0.0)%float) with false. cbv iota. cbv zeta.
    rewrite Hfour. reflexivity.
Qed.

End Covariance.

(** ** What each handler does, by case of its guard *)

Section Handlers.
Context `{ftf : Ftf}.

Lemma handle_attitude_dropped uas att p :
  has_att_quat p = true -> handle_attitude uas att p = (tt, p, []).
Proof. intros H. run_handler. rewrite H. reflexivity. Qed.

Lemma handle_raw_imu_dropped uas imu_raw p :
  has_hr_imu p || has_scaled_imu p = true -> handle_raw_imu uas imu_raw p = (tt, p, []).
Proof. intros H. run_handler. rewrite H. reflexivity. Qed.

Lemma handle_scaled_imu_dropped uas imu_raw p :
  has_hr_imu p = true -> handle_scaled_imu uas imu_raw p = (tt, p, []).
Proof. intros H. run_handler. rewrite H. reflexivity. Qed.

Lemma handle_scaled_pressure_dropped uas press p :
  has_hr_imu p = true -> handle_scaled_pressure uas press p = (tt, p, []).
Proof. intros H. run_handler. rewrite H. reflexivity. Qed.

(** A delivery that the guard rejects is dropped. *)
Lemma not_accepted_dropped uas p i : accepted p i = false -> dropped uas p i.
Proof.
  destruct i; cbn [accepted]; intros H; try discriminate H;
    apply negb_false_iff in H; unfold dropped, deliver.
  - by apply handle_attitude_dropped.
  - by apply handle_raw_imu_dropped.
  - by apply handle_scaled_imu_dropped.
  - by apply handle_scaled_pressure_dropped.
Qed.

(** No message handler clears a flag. *)
Lemma deliver_keeps_flags uas i p :
  is_connection_changed i = false ->
  let p' := state_of (deliver uas i p) in
  (has_hr_imu p = true -> has_hr_imu p' = true) /\
  (has_scaled_imu p = true -> has_scaled_imu p' = true) /\
  (has_att_quat p = true -> has_att_quat p' = true).
Proof.
  intros Hi.
  destruct p as [fid hr sc q enu ned c1 c2 c3 c4 c5].
  destruct i as [att|att_q|imu_hr|imu_raw|imu_raw|press|c]; try discriminate Hi;
    run_handler.
  - destruct q; cbn; auto.
  - destruct q; cbn; auto.
  - destruct hr; cbn;
      repeat match goal with |- context [bits_set ?f ?m] => destruct (bits_set f m); cbn end;
      auto.
  - destruct hr, sc; cbn; auto; destruct (is_ardupilotmega uas); cbn; auto.
  - destruct hr; cbn; auto; destruct sc; cbn; auto.
  - destruct hr; cbn; auto.
Qed.

(** Each flag is raised by its own handler. *)
Lemma handle_highres_imu_sets_flag uas imu_hr p :
  has_hr_imu (state_of (handle_highres_imu uas imu_hr p)) = true.
Proof.
  destruct p as [fid hr sc q enu ned c1 c2 c3 c4 c5]. run_handler.
  destruct hr; cbn;
    repeat match goal with
           | |- context [bits_set ?f ?m] => destruct (bits_set f m); cbn
           end;
    reflexivity.
Qed.

Lemma handle_attitude_quaternion_sets_flag uas att_q p :
  has_att_quat (state_of (handle_attitude_quaternion uas att_q p)) = true.
Proof.
  destruct p as [fid hr sc q enu ned c1 c2 c3 c4 c5]. run_handler.
  destruct q; reflexivity.
Qed.

Lemma handle_scaled_imu_sets_flag uas imu_raw p :
  has_hr_imu p = false ->
  has_scaled_imu (state_of (handle_scaled_imu uas imu_raw p)) = true.
Proof.
  destruct p as [fid hr sc q enu ned c1 c2 c3 c4 c5]. cbn. intros ->.
  run_handler. destruct sc; reflexivity.
Qed.

Lemma run_nil_state p : state_of (run [] p) = p.
Proof. reflexivity. Qed.

Lemma run_cons_state uas i (rest : list (UAS * Inbound)) p :
  state_of (run ((uas, i) :: rest) p)
  = state_of (run rest (state_of (deliver uas i p))).
Proof.
  cbn [run]. unfold state_of, mbind, M_bind.
  destruct (deliver uas i p) as [[[] p1] out1]. cbn.
  destruct (run rest p1) as [[[] p2] out2]. reflexivity.
Qed.

Lemma run_keeps_flags (deliveries : list (UAS * Inbound)) p :
  Forall (fun d => is_connection_changed d.2 = false) deliveries ->
  let p' := state_of (run deliveries p) in
  (has_hr_imu p = true -> has_hr_imu p' = true) /\
  (has_scaled_imu p = true -> has_scaled_imu p' = true) /\
  (has_att_quat p = true -> has_att_quat p' = true).
Proof.
  intros Hall. revert p.
  induction Hall as [|[uas i] rest Hi _ IH]; intros p.
  - cbn. auto.
  - cbn in Hi.
    pose proof (deliver_keeps_flags uas i p Hi) as (H1 & H2 & H3).
    specialize (IH (state_of (deliver uas i p))). cbn zeta in IH.
    destruct IH as (I1 & I2 & I3).
    cbn zeta. rewrite run_cons_state. auto.
Qed.

(** ** Arbitration *)

(** C3: with no connection change in between, once a HIGHRES_IMU message
    has been handled every later SCALED_IMU and RAW_IMU message is dropped;
    once an ATTITUDE_QUATERNION message has been handled every later
    ATTITUDE message is dropped; and once a SCALED_IMU message has been
    accepted every later RAW_IMU message is dropped.  Dropped means no
    effect and no change of state. *)
Theorem arbitration_monotonicity (uas0 uas : UAS) (p : IMUPlugin)
    (later : list (UAS * Inbound)) :
  Forall (fun d => is_connection_changed d.2 = false) later ->
  (forall imu_hr,
     let p' := state_of (run ((uas0, msg_HIGHRES_IMU imu_hr) :: later) p) in
     (forall m, dropped uas p' (msg_SCALED_IMU m)) /\
     (forall m, dropped uas p' (msg_RAW_IMU m))) /\
  (forall att_q,
     let p' := state_of (run ((uas0, msg_ATTITUDE_QUATERNION att_q) :: later) p) in
     forall att, dropped uas p' (msg_ATTITUDE att)) /\
  (forall sc,
     accepted p (msg_SCALED_IMU sc) = true ->
     let p' := state_of (run ((uas0, msg_SCALED_IMU sc) :: later) p) in
     forall m, dropped uas p' (msg_RAW_IMU m)).
Proof.
  intros Hlater.
  split; [|split].
  - intros imu_hr p'. subst p'. rewrite run_cons_state.
    assert (Hhr : has_hr_imu
              (state_of (run later (state_of (deliver uas0 (msg_HIGHRES_IMU imu_hr) p))))
              = true).
    { apply (run_keeps_flags later _ Hlater), handle_highres_imu_sets_flag. }
    split; intros m; apply not_accepted_dropped; cbn [accepted]; rewrite Hhr;
      reflexivity.
  - intros att_q p' att. subst p'. rewrite run_cons_state.
    apply not_accepted_dropped. cbn [accepted].
    apply negb_false_iff, (run_keeps_flags later _ Hlater).
    apply handle_attitude_quaternion_sets_flag.
  - intros sc Hacc p' m. subst p'. rewrite run_cons_state.
    apply not_accepted_dropped. cbn [accepted].
    apply negb_false_iff, orb_true_iff. right.
    apply (run_keeps_flags later _ Hlater).
    cbn [accepted] in Hacc. apply negb_true_iff in Hacc.
    by apply handle_scaled_imu_sets_flag.
Qed.

(** An accepted message leaves a trace: at least one effect. *)
Lemma accepted_after_reset_not_dropped uas i p :
  is_connection_changed i = false ->
  has_hr_imu p = false -> has_scaled_imu p = false -> has_att_quat p = false ->
  effects_of (deliver uas i p) <> [].
Proof.
  destruct p as [fid hr sc q enu ned c1 c2 c3 c4 c5]. cbn.
  intros Hi -> -> ->.
  destruct i; try discriminate Hi; run_handler;
    repeat match goal with
           | |- context [bits_set ?f ?m] => destruct (bits_set f m); cbn
           | |- context [is_ardupilotmega ?u] => destruct (is_ardupilotmega u); cbn
           end;
    discriminate.
Qed.

(** C4: a connection change, with either payload, clears the three flags,
    has no effect, and leaves the frame name, the cached acceleration pair
    and the five covariance arrays as they were; the next message of any
    kind is then accepted. *)
Theorem connection_cb_resets_flags_only (uas0 : UAS) (connected : bool)
    (p : IMUPlugin) :
  let r := deliver uas0 (connection_changed connected) p in
  let p' := state_of r in
  r = connection_cb connected p /\
  effects_of r = [] /\
  has_hr_imu p' = false /\ has_scaled_imu p' = false /\ has_att_quat p' = false /\
  frame_id p' = frame_id p /\
  cached_linear_accel p' = cached_linear_accel p /\
  linear_acceleration_cov p' = linear_acceleration_cov p /\
  angular_velocity_cov p' = angular_velocity_cov p /\
  orientation_cov p' = orientation_cov p /\
  unk_orientation_cov p' = unk_orientation_cov p /\
  magnetic_cov p' = magnetic_cov p /\
  (forall uas i, is_connection_changed i = false ->
     accepted p' i = true /\ ~ dropped uas p' i).
Proof.
  cbv zeta. cbn [deliver].
  repeat match goal with |- _ /\ _ => split end; try reflexivity.
  intros uas i Hi. split.
  - destruct i; reflexivity.
  - unfold dropped. intros Hd.
    apply (accepted_after_reset_not_dropped uas i (state_of (connection_cb connected p)) Hi);
      try reflexivity.
    rewrite Hd. reflexivity.
Qed.

(** C5: a SCALED_PRESSURE message is dropped exactly when [has_hr_imu] is
    set, whatever the other two flags; when accepted it publishes one
    temperature record, the raw temperature divided by 100.0, and then one
    pressure record, the raw pressure multiplied by 100.0, and nothing
    else. *)
Theorem scaled_pressure_gate (uas : UAS) (press : SCALED_PRESSURE.t) (p : IMUPlugin) :
  (dropped uas p (msg_SCALED_PRESSURE press) <-> has_hr_imu p = true) /\
  (has_hr_imu p = false ->
   deliver uas (msg_SCALED_PRESSURE press) p
   = (tt, p,
      [temp_pub_publish
         {| temp_header :=
              synchronized_header uas (frame_id p)
                (boot_ms (SCALED_PRESSURE.time_boot_ms press));
            temperature :=
              (double_of_int (SCALED_PRESSURE.temperature press) / 100.0)%float;
            temp_variance := 0%float |};
       press_pub_publish
         {| atmp_header :=
              synchronized_header uas (frame_id p)
                (boot_ms (SCALED_PRESSURE.time_boot_ms press));
            fluid_pressure := (SCALED_PRESSURE.press_abs press * 100.0)%float;
            atmp_variance := 0%float |}])).
Proof.
  assert (Hacc : has_hr_imu p = false ->
    deliver uas (msg_SCALED_PRESSURE press) p
    = (tt, p,
       [temp_pub_publish
          {| temp_header :=
               synchronized_header uas (frame_id p)
                 (boot_ms (SCALED_PRESSURE.time_boot_ms press));
             temperature :=
               (double_of_int (SCALED_PRESSURE.temperature press) / 100.0)%float;
             temp_variance := 0%float |};
        press_pub_publish
          {| atmp_header :=
               synchronized_header uas (frame_id p)
                 (boot_ms (SCALED_PRESSURE.time_boot_ms press));
             fluid_pressure := (SCALED_PRESSURE.press_abs press * 100.0)%float;
             atmp_variance := 0%float |}])).
  { intros Hhr. run_handler. rewrite Hhr. reflexivity. }
  split; [split|exact Hacc].
  - intros Hd. destruct (has_hr_imu p) eqn:Hhr; [reflexivity|].
    unfold dropped in Hd. rewrite (Hacc eq_refl) in Hd. discriminate Hd.
  - intros Hhr. by apply handle_scaled_pressure_dropped.
Qed.

(** C10: an ATTITUDE message changes nothing in the plugin, accepted or
    not; a flag that goes from clear to set does so in its own handler
    ([has_att_quat] in ATTITUDE_QUATERNION, [has_hr_imu] in HIGHRES_IMU,
    [has_scaled_imu] in SCALED_IMU); each of these handlers sets its flag
    when it accepts; no message handler clears a flag; and the connection
    callback clears all three. *)
Theorem flags_set_only_by_own_handler (uas : UAS) (i : Inbound) (p : IMUPlugin) :
  let p' := state_of (deliver uas i p) in
  (forall att, i = msg_ATTITUDE att -> p' = p) /\
  (has_att_quat p = false -> has_att_quat p' = true ->
     exists att_q, i = msg_ATTITUDE_QUATERNION att_q) /\
  (has_hr_imu p = false -> has_hr_imu p' = true ->
     exists imu_hr, i = msg_HIGHRES_IMU imu_hr) /\
  (has_scaled_imu p = false -> has_scaled_imu p' = true ->
     exists imu_raw, i = msg_SCALED_IMU imu_raw) /\
  (forall att_q, i = msg_ATTITUDE_QUATERNION att_q -> has_att_quat p' = true) /\
  (forall imu_hr, i = msg_HIGHRES_IMU imu_hr -> has_hr_imu p' = true) /\
  (forall imu_raw, i = msg_SCALED_IMU imu_raw -> accepted p i = true ->
     has_scaled_imu p' = true) /\
  (is_connection_changed i = false ->
     (has_hr_imu p = true -> has_hr_imu p' = true) /\
     (has_scaled_imu p = true -> has_scaled_imu p' = true) /\
     (has_att_quat p = true -> has_att_quat p' = true)) /\
  (is_connection_changed i = true ->
     has_hr_imu p' = false /\ has_scaled_imu p' = false /\ has_att_quat p' = false).
Proof.
  cbv zeta.
  split; [|split; [|split; [|split; [|split; [|split; [|split; [|split]]]]]]].
  - intros att ->. destruct p as [fid hr sc q enu ned c1 c2 c3 c4 c5].
    run_handler. destruct q; reflexivity.
  - destruct p as [fid hr sc q enu ned c1 c2 c3 c4 c5]. cbn [has_att_quat].
    intros ->. destruct i; run_handler; eauto;
      repeat match goal with
             | |- context [if ?b then _ else _] => destruct b; cbn
             end; discriminate.
  - destruct p as [fid hr sc q enu ned c1 c2 c3 c4 c5]. cbn [has_hr_imu].
    intros ->. destruct i; run_handler; eauto;
      repeat match goal with
             | |- context [if ?b then _ else _] => destruct b; cbn
             end; discriminate.
  - destruct p as [fid hr sc q enu ned c1 c2 c3 c4 c5]. cbn [has_scaled_imu].
    intros ->. destruct i; run_handler; eauto;
      repeat match goal with
             | |- context [if ?b then _ else _] => destruct b; cbn
             end; discriminate.
  - intros att_q ->. apply handle_attitude_quaternion_sets_flag.
  - intros imu_hr ->. apply handle_highres_imu_sets_flag.
  - intros imu_raw -> Hacc. cbn [accepted] in Hacc. apply negb_true_iff in Hacc.
    by apply handle_scaled_imu_sets_flag.
  - apply deliver_keeps_flags.
  - destruct i; try discriminate. intros _. repeat split.
Qed.

(** ** The RAW_IMU handler on firmware other than APM *)

(** The vectors [handle_raw_imu] computes when the firmware is not APM. *)
Lemma handle_raw_imu_not_apm uas imu_raw p :
  is_ardupilotmega uas = false ->
  has_hr_imu p = false -> has_scaled_imu p = false ->
  let header := synchronized_header uas (frame_id p) (usec (RAW_IMU.time_usec imu_raw)) in
  let gyro := transform_frame_aircraft_baselink
    (vscale (mkVector3d (double_of_int (RAW_IMU.xgyro imu_raw))
               (double_of_int (RAW_IMU.ygyro imu_raw))
               (double_of_int (RAW_IMU.zgyro imu_raw))) MILLIRS_TO_RADSEC) in
  let accel_ned :=
    mkVector3d (double_of_int (RAW_IMU.xacc imu_raw))
      (double_of_int (RAW_IMU.yacc imu_raw)) (double_of_int (RAW_IMU.zacc imu_raw)) in
  let accel_enu := transform_frame_aircraft_baselink accel_ned in
  let mag_field := transform_frame_aircraft_baselink
    (vscale (mkVector3d (double_of_int (RAW_IMU.xmag imu_raw))
               (double_of_int (RAW_IMU.ymag imu_raw))
               (double_of_int (RAW_IMU.zmag imu_raw))) MILLIT_TO_TESLA) in
  handle_raw_imu uas imu_raw p
  = (tt,
     set_linear_accel_vec_ned Vector3d_Zero
       (set_linear_accel_vec_enu Vector3d_Zero
          (state_of (publish_imu_data_raw header gyro accel_enu accel_ned p))),
     effects_of (publish_imu_data_raw header gyro accel_enu accel_ned p)
     ++ [ROS_WARN_THROTTLE_NAMED 60 "imu"
           "IMU: linear acceleration on RAW_IMU known on APM only.";
         ROS_WARN_THROTTLE_NAMED 60 "imu"
           "IMU: ~imu/data_raw stores unscaled raw acceleration report.";
         magn_pub_publish
           {| magn_header := header;
              magnetic_field := mag_field;
              magnetic_field_covariance := magnetic_cov p |}]).
Proof.
  intros Hapm Hhr Hsc. cbv zeta.
  destruct p as [fid hr sc q enu ned c1 c2 c3 c4 c5]. cbn in Hhr, Hsc. subst hr sc.
  run_handler. rewrite Hapm. reflexivity.
Qed.

Lemma publish_imu_data_raw_spec header gyro accel_enu accel_ned p :
  publish_imu_data_raw header gyro accel_enu accel_ned p
  = (tt,
     set_linear_accel_vec_ned accel_ned (set_linear_accel_vec_enu accel_enu p),
     [imu_raw_pub_publish
        {| imu_header := header;
           orientation := Quaternion_default;
           angular_velocity := gyro;
           linear_acceleration := accel_enu;
           orientation_covariance := unk_orientation_cov p;
           angular_velocity_covariance := angular_velocity_cov p;
           linear_acceleration_covariance := linear_acceleration_cov p |}]).
Proof. destruct p. reflexivity. Qed.

(** C9: an accepted RAW_IMU message on firmware other than APM publishes
    the data_raw record and saves the reading first, the acceleration
    being the rotated raw counts with no unit scaling; the two warnings and
    the zeroing come after, so the handler ends with the cached pair at
    (0,0,0) in both frames. *)
Theorem raw_imu_not_apm_publishes_then_zeroes (uas : UAS) (imu_raw : RAW_IMU.t)
    (p : IMUPlugin) :
  is_ardupilotmega uas = false ->
  accepted p (msg_RAW_IMU imu_raw) = true ->
  let header := synchronized_header uas (frame_id p) (usec (RAW_IMU.time_usec imu_raw)) in
  let gyro := transform_frame_aircraft_baselink
    (vscale (mkVector3d (double_of_int (RAW_IMU.xgyro imu_raw))
               (double_of_int (RAW_IMU.ygyro imu_raw))
               (double_of_int (RAW_IMU.zgyro imu_raw))) MILLIRS_TO_RADSEC) in
  let accel_ned :=
    mkVector3d (double_of_int (RAW_IMU.xacc imu_raw))
      (double_of_int (RAW_IMU.yacc imu_raw)) (double_of_int (RAW_IMU.zacc imu_raw)) in
  let accel_enu := transform_frame_aircraft_baselink accel_ned in
  let saved := publish_imu_data_raw header gyro accel_enu accel_ned p in
  let done := deliver uas (msg_RAW_IMU imu_raw) p in
  exists m mag,
    effects_of saved = [imu_raw_pub_publish m] /\
    linear_acceleration m = accel_enu /\
    cached_linear_accel (state_of saved) = (accel_enu, accel_ned) /\
    effects_of done
    = [imu_raw_pub_publish m;
       ROS_WARN_THROTTLE_NAMED 60 "imu"
         "IMU: linear acceleration on RAW_IMU known on APM only.";
       ROS_WARN_THROTTLE_NAMED 60 "imu"
         "IMU: ~imu/data_raw stores unscaled raw acceleration report.";
       magn_pub_publish mag] /\
    cached_linear_accel (state_of done) = (Vector3d_Zero, Vector3d_Zero).
Proof.
  intros Hapm Hacc. cbv zeta. cbn [accepted] in Hacc.
  apply negb_true_iff, orb_false_iff in Hacc. destruct Hacc as [Hhr Hsc].
  cbn [deliver].
  rewrite (handle_raw_imu_not_apm uas imu_raw p Hapm Hhr Hsc).
  rewrite publish_imu_data_raw_spec.
  eexists. eexists.
  repeat match goal with |- _ /\ _ => split end; reflexivity.
Qed.

Lemma handle_raw_imu_flags uas imu_raw p :
  let p' := state_of (handle_raw_imu uas imu_raw p) in
  has_hr_imu p' = has_hr_imu p /\ has_scaled_imu p' = has_scaled_imu p.
Proof.
  destruct p as [fid hr sc q enu ned c1 c2 c3 c4 c5]. run_handler.
  destruct hr, sc; cbn; auto; destruct (is_ardupilotmega uas); cbn; auto.
Qed.

(** C2, as the handler has it: on firmware other than APM every RAW_IMU
    message of a sequence, the first and the later ones alike, is accepted,
    saves its reading in the cached pair and publishes it as the data_raw
    record, requests the two warnings ([ROS_WARN_THROTTLE], period 60: the
    rate limit is on the warning alone), and then sets the cached pair to
    (0,0,0) in both frames; the plugin it leaves is the one with the
    reading saved, with the two vectors zeroed. *)
Theorem raw_imu_not_apm_zeroes_every_time (uas : UAS) (raws : list RAW_IMU.t)
    (p : IMUPlugin) :
  is_ardupilotmega uas = false ->
  has_hr_imu p = false -> has_scaled_imu p = false ->
  forall (n : nat) (imu_raw : RAW_IMU.t),
    raws !! n = Some imu_raw ->
    let before :=
      state_of (run ((fun m => (uas, msg_RAW_IMU m)) <$> take n raws) p) in
    let header :=
      synchronized_header uas (frame_id before) (usec (RAW_IMU.time_usec imu_raw)) in
    let gyro := transform_frame_aircraft_baselink
      (vscale (mkVector3d (double_of_int (RAW_IMU.xgyro imu_raw))
                 (double_of_int (RAW_IMU.ygyro imu_raw))
                 (double_of_int (RAW_IMU.zgyro imu_raw))) MILLIRS_TO_RADSEC) in
    let accel_ned :=
      mkVector3d (double_of_int (RAW_IMU.xacc imu_raw))
        (double_of_int (RAW_IMU.yacc imu_raw)) (double_of_int (RAW_IMU.zacc imu_raw)) in
    let accel_enu := transform_frame_aircraft_baselink accel_ned in
    let saved := publish_imu_data_raw header gyro accel_enu accel_ned before in
    let done := deliver uas (msg_RAW_IMU imu_raw) before in
    accepted before (msg_RAW_IMU imu_raw) = true /\
    cached_linear_accel (state_of saved) = (accel_enu, accel_ned) /\
    (exists m mag,
       effects_of saved = [imu_raw_pub_publish m] /\
       linear_acceleration m = accel_enu /\
       effects_of done
       = [imu_raw_pub_publish m;
          ROS_WARN_THROTTLE_NAMED 60 "imu"
            "IMU: linear acceleration on RAW_IMU known on APM only.";
          ROS_WARN_THROTTLE_NAMED 60 "imu"
            "IMU: ~imu/data_raw stores unscaled raw acceleration report.";
          magn_pub_publish mag]) /\
    state_of done
    = set_linear_accel_vec_ned Vector3d_Zero
        (set_linear_accel_vec_enu Vector3d_Zero (state_of saved)) /\
    cached_linear_accel (state_of done) = (Vector3d_Zero, Vector3d_Zero).
Proof.
  intros Hapm. revert p.
  induction raws as [|m raws IH]; intros p Hhr Hsc n imu_raw Hn; [discriminate Hn|].
  destruct n as [|n].
  - cbn in Hn. injection Hn as ->. cbn [take fmap list_fmap].
    rewrite run_nil_state. cbv zeta. cbn [deliver].
    rewrite (handle_raw_imu_not_apm uas imu_raw p Hapm Hhr Hsc).
    rewrite publish_imu_data_raw_spec.
    split; [cbn [accepted]; rewrite Hhr, Hsc; reflexivity|].
    split; [reflexivity|].
    split; [eexists; eexists; split; [reflexivity|split; reflexivity]|].
    split; reflexivity.
  - cbn in Hn. cbn [take fmap list_fmap]. cbv zeta.
    rewrite run_cons_state.
    pose proof (handle_raw_imu_flags uas m p) as [F1 F2]. cbn [deliver].
    apply IH; [congruence|congruence|exact Hn].
Qed.

(** ** The paired attitude records *)

Lemma publish_imu_data_spec uas t orientation_enu orientation_ned gyro_enu gyro_ned p :
  let imu_enu_msg :=
    {| imu_header := synchronized_header uas (frame_id p) (boot_ms t);
       orientation := orientation_enu;
       angular_velocity := gyro_enu;
       linear_acceleration := linear_accel_vec_enu p;
       orientation_covariance := orientation_cov p;
       angular_velocity_covariance := angular_velocity_cov p;
       linear_acceleration_covariance := linear_acceleration_cov p |} in
  let imu_ned_msg :=
    {| imu_header := synchronized_header uas "aircraft" (boot_ms t);
       orientation := orientation_ned;
       angular_velocity := gyro_ned;
       linear_acceleration := linear_accel_vec_ned p;
       orientation_covariance := orientation_cov p;
       angular_velocity_covariance := angular_velocity_cov p;
       linear_acceleration_covariance := linear_acceleration_cov p |} in
  publish_imu_data uas t orientation_enu orientation_ned gyro_enu gyro_ned p
  = (tt, p,
     [update_attitude_imu_enu imu_enu_msg; update_attitude_imu_ned imu_ned_msg;
      imu_pub_publish imu_enu_msg]).
Proof. destruct p. reflexivity. Qed.

(** The records an accepted attitude-bearing message dispatches: the two
    UAS updates and the publication of the ENU record, each field read
    from the plugin as it is when the message arrives. *)
Lemma attitude_records uas i p :
  is_attitude i = true -> accepted p i = true ->
  exists m_enu m_ned,
    dispatched (effects_of (deliver uas i p))
    = [update_attitude_imu_enu m_enu; update_attitude_imu_ned m_ned;
       imu_pub_publish m_enu] /\
    orientation_covariance m_enu = orientation_cov p /\
    orientation_covariance m_ned = orientation_cov p /\
    linear_acceleration m_enu = linear_accel_vec_enu p /\
    linear_acceleration m_ned = linear_accel_vec_ned p /\
    cached_linear_accel (state_of (deliver uas i p)) = cached_linear_accel p.
Proof.
  destruct i as [att|att_q| | | | |]; try discriminate; intros _ Hacc.
  - cbn [accepted] in Hacc. apply negb_true_iff in Hacc.
    cbn [deliver]. unfold handle_attitude, member, mbind, M_bind. rewrite Hacc.
    match goal with
    | |- context [publish_imu_data ?u ?t ?a ?b ?c ?d p] =>
        destruct (publish_imu_data u t a b c d p) as [[[] p1] out] eqn:E;
        rewrite publish_imu_data_spec in E; injection E as <- <-
    end.
    eexists. eexists. repeat match goal with |- _ /\ _ => split end; reflexivity.
  - cbn [deliver]. destruct p as [fid hr sc q enu ned c1 c2 c3 c4 c5].
    run_handler. eexists. eexists.
    repeat match goal with |- _ /\ _ => split end;
      try reflexivity; destruct q; reflexivity.
Qed.

(** C6: when an inertial message has left the cached pair at [enu] and
    [ned] (the claim's (1,2,3) and v), an attitude-bearing message accepted
    next dispatches records whose linear acceleration is that pair: [enu]
    on the ENU record, [ned] on the NED record. *)
Theorem cache_correctness (uas1 uas2 : UAS) (raw a : Inbound) (p : IMUPlugin)
    (enu ned : Vector3d) :
  is_inertial raw = true -> accepted p raw = true ->
  let p1 := state_of (deliver uas1 raw p) in
  cached_linear_accel p1 = (enu, ned) ->
  is_attitude a = true -> accepted p1 a = true ->
  exists m_enu m_ned,
    dispatched (effects_of (deliver uas2 a p1))
    = [update_attitude_imu_enu m_enu; update_attitude_imu_ned m_ned;
       imu_pub_publish m_enu] /\
    linear_acceleration m_enu = enu /\
    linear_acceleration m_ned = ned /\
    cached_linear_accel (state_of (deliver uas2 a p1)) = (enu, ned).
Proof.
  intros _ _ p1 Hcache Ha Hacc.
  destruct (attitude_records uas2 a p1 Ha Hacc)
    as (m_enu & m_ned & H1 & _ & _ & H4 & H5 & H6).
  pose proof Hcache as Hpair.
  unfold cached_linear_accel in Hpair. injection Hpair as He Hn.
  exists m_enu, m_ned.
  repeat match goal with |- _ /\ _ => split end; congruence.
Qed.

(** ** Unit conversion *)

(** Split a membership in an explicit effect list into its cases. *)
Ltac effect_cases H :=
  repeat (apply elem_of_cons in H as [H|H]);
  try (apply elem_of_nil in H; destruct H);
  try discriminate H.

(** Find an effect of the wanted kind in an explicit effect list. *)
Ltac effect_found :=
  repeat (apply elem_of_cons; first [left; reflexivity | right]).

(** C8: one Gauss times [GAUSS_TO_TESLA] is the binary64 value 1.0e-4;
    every magnetic record of a HIGHRES_IMU message holds the rotated
    vector of the magnetometer components each multiplied by 1.0e-4, and
    there is one when the magnetometer bits are set; every data_raw record
    of a RAW_IMU or SCALED_IMU message holds the rotated rates each
    multiplied by 1.0e-3, and for SCALED_IMU the rotated accelerations each
    multiplied by 9.80665/1000.0; an accepted message has such a record. *)
Theorem unit_conversion_exact :
  (1 * GAUSS_TO_TESLA)%float = 1.0e-4%float /\
  (forall uas imu_hr p,
     let out := effects_of (deliver uas (msg_HIGHRES_IMU imu_hr) p) in
     (forall m, magn_pub_publish m ∈ out ->
        magnetic_field m
        = transform_frame_aircraft_baselink
            (mkVector3d (HIGHRES_IMU.xmag imu_hr * 1.0e-4)%float
               (HIGHRES_IMU.ymag imu_hr * 1.0e-4)%float
               (HIGHRES_IMU.zmag imu_hr * 1.0e-4)%float)) /\
     (bits_set (HIGHRES_IMU.fields_updated imu_hr) (Z.shiftl 7 6) = true ->
        exists m, magn_pub_publish m ∈ out)) /\
  (forall uas imu_raw p,
     let out := effects_of (deliver uas (msg_RAW_IMU imu_raw) p) in
     (forall m, imu_raw_pub_publish m ∈ out ->
        angular_velocity m
        = transform_frame_aircraft_baselink
            (mkVector3d (double_of_int (RAW_IMU.xgyro imu_raw) * 1.0e-3)%float
               (double_of_int (RAW_IMU.ygyro imu_raw) * 1.0e-3)%float
               (double_of_int (RAW_IMU.zgyro imu_raw) * 1.0e-3)%float)) /\
     (accepted p (msg_RAW_IMU imu_raw) = true ->
        exists m, imu_raw_pub_publish m ∈ out)) /\
  (forall uas imu_raw p,
     let out := effects_of (deliver uas (msg_SCALED_IMU imu_raw) p) in
     (forall m, imu_raw_pub_publish m ∈ out ->
        angular_velocity m
        = transform_frame_aircraft_baselink
            (mkVector3d (double_of_int (SCALED_IMU.xgyro imu_raw) * 1.0e-3)%float
               (double_of_int (SCALED_IMU.ygyro imu_raw) * 1.0e-3)%float
               (double_of_int (SCALED_IMU.zgyro imu_raw) * 1.0e-3)%float) /\
        linear_acceleration m
        = transform_frame_aircraft_baselink
            (mkVector3d
               (double_of_int (SCALED_IMU.xacc imu_raw) * (9.80665 / 1000.0))%float
               (double_of_int (SCALED_IMU.yacc imu_raw) * (9.80665 / 1000.0))%float
               (double_of_int (SCALED_IMU.zacc imu_raw) * (9.80665 / 1000.0))%float)) /\
     (accepted p (msg_SCALED_IMU imu_raw) = true ->
        exists m, imu_raw_pub_publish m ∈ out)).
Proof.
  split; [reflexivity|]. split; [|split].
  - intros uas imu_hr p out. subst out.
    destruct p as [fid hr sc q enu ned c1 c2 c3 c4 c5]. run_handler. split.
    + intros m H.
      destruct hr; cbn in H;
        repeat match type of H with
               | context [bits_set ?f ?k] => destruct (bits_set f k); cbn in H
               end;
        effect_cases H; injection H as ->; reflexivity.
    + intros ->.
      destruct hr; cbn;
        repeat match goal with
               | |- context [bits_set ?f ?k] => destruct (bits_set f k); cbn
               end;
        eexists; effect_found.
  - intros uas imu_raw p out. subst out.
    destruct p as [fid hr sc q enu ned c1 c2 c3 c4 c5]. run_handler. split.
    + intros m H.
      destruct hr, sc; cbn in H; try (apply elem_of_nil in H; destruct H);
        destruct (is_ardupilotmega uas); cbn in H;
        effect_cases H; injection H as ->; reflexivity.
    + intros Hacc. apply negb_true_iff, orb_false_iff in Hacc as [-> ->]. cbn.
      destruct (is_ardupilotmega uas); cbn; eexists; effect_found.
  - intros uas imu_raw p out. subst out.
    destruct p as [fid hr sc q enu ned c1 c2 c3 c4 c5]. run_handler. split.
    + intros m H.
      destruct hr; cbn in H; try (apply elem_of_nil in H; destruct H);
        destruct sc; cbn in H;
        effect_cases H; injection H as ->; split; reflexivity.
    + intros Hacc. apply negb_true_iff in Hacc as ->. cbn.
      destruct sc; cbn; eexists; effect_found.
Qed.

End Handlers.

(** * Further properties of the plugin *)

(** ** Construction and initialisation *)

Section Initialisation.
Context `{libm : Libm}.

Lemma fill_zero (cov : Covariance3d) :
  (fun _ => 0%float) <$> cov = replicate (length cov) 0%float.
Proof. induction cov as [|x cov IH]; cbn; [reflexivity|]. by rewrite IH. Qed.

Lemma setup_covariance_fill (cov : Covariance3d) (stdev : double) :
  setup_covariance cov stdev = setup_covariance (replicate (length cov) 0%float) stdev.
Proof.
  unfold setup_covariance. rewrite !fill_zero, length_replicate. reflexivity.
Qed.

Lemma setup_covariance_length (cov : Covariance3d) (stdev : double) :
  length (setup_covariance cov stdev) = length cov.
Proof.
  unfold setup_covariance.
  destruct (stdev =? 0.0)%float; rewrite ?length_insert, length_fmap; reflexivity.
Qed.

(** X1: [setup_covariance] overwrites the whole array: the result has the
    length of the array it is given and depends on the deviation only, not
    on what the array held before. *)
Theorem setup_covariance_overwrites (cov1 cov2 : Covariance3d) (stdev : double) :
  length cov1 = length cov2 ->
  setup_covariance cov1 stdev = setup_covariance cov2 stdev /\
  length (setup_covariance cov1 stdev) = length cov1.
Proof.
  intros Hlen. split; [|apply setup_covariance_length].
  rewrite (setup_covariance_fill cov1), (setup_covariance_fill cov2), Hlen.
  reflexivity.
Qed.

Lemma setup_covariance_zero (cov : Covariance3d) :
  length cov = 9%nat ->
  setup_covariance cov 0.0%float
  = [(-1.0)%float; 0%float; 0%float; 0%float; 0%float; 0%float;
     0%float; 0%float; 0%float].
Proof.
  intros Hlen. rewrite setup_covariance_fill, Hlen. reflexivity.
Qed.

(** X2: construction followed by [initialize] has no effect on the node,
    leaves the three flags clear, sets the frame name to the parameter or
    to base_link, and makes [unk_orientation_cov] the unknown sentinel
    whatever the parameters are; the magnetic covariance is the sentinel
    too when no magnetic deviation is configured.  The cached acceleration
    vectors are not written: they keep what the storage held. *)
Theorem initialize_configures (params : Params) (storage : IMUPlugin) :
  arrays_sized storage ->
  let r := initialize params (IMUPlugin_ctor storage) in
  let p := state_of r in
  effects_of r = [] /\
  has_hr_imu p = false /\ has_scaled_imu p = false /\ has_att_quat p = false /\
  frame_id p = default "base_link"%string (param_frame_id params) /\
  unk_orientation_cov p
  = [(-1.0)%float; 0%float; 0%float; 0%float; 0%float; 0%float;
     0%float; 0%float; 0%float] /\
  (param_magnetic_stdev params = None ->
   magnetic_cov p
   = [(-1.0)%float; 0%float; 0%float; 0%float; 0%float; 0%float;
      0%float; 0%float; 0%float]) /\
  cached_linear_accel p = cached_linear_accel storage /\
  arrays_sized p.
Proof.
  intros (H1 & H2 & H3 & H4 & H5).
  destruct storage as [fid hr sc q enu ned c1 c2 c3 c4 c5]. cbn in H1, H2, H3, H4, H5.
  cbv zeta. unfold initialize, IMUPlugin_ctor, member, assign, state_of, effects_of.
  unfold mbind, M_bind, mret, M_ret. cbn -[setup_covariance].
  repeat match goal with |- _ /\ _ => split end; try reflexivity.
  - by apply setup_covariance_zero.
  - intros ->. by apply setup_covariance_zero.
  - unfold arrays_sized. cbn -[setup_covariance].
    rewrite !setup_covariance_length. auto.
Qed.

(** X3: what the storage held before construction does not reach the
    initialised plugin, the two cached acceleration vectors apart: two
    storages with arrays of nine entries and the same two vectors give the
    same plugin. *)
Theorem initialize_forgets_storage (params : Params) (s1 s2 : IMUPlugin) :
  arrays_sized s1 -> arrays_sized s2 ->
  cached_linear_accel s1 = cached_linear_accel s2 ->
  initialize params (IMUPlugin_ctor s1) = initialize params (IMUPlugin_ctor s2).
Proof.
  intros (A1 & A2 & A3 & A4 & A5) (B1 & B2 & B3 & B4 & B5) Hc.
  destruct s1 as [fid hr sc q enu ned c1 c2 c3 c4 c5].
  destruct s2 as [fid' hr' sc' q' enu' ned' d1 d2 d3 d4 d5].
  cbn in A1, A2, A3, A4, A5, B1, B2, B3, B4, B5.
  unfold cached_linear_accel in Hc. cbn in Hc. injection Hc as -> ->.
  unfold initialize, IMUPlugin_ctor, member, assign.
  unfold mbind, M_bind, mret, M_ret. cbn -[setup_covariance].
  rewrite (setup_covariance_fill c1), (setup_covariance_fill c2),
    (setup_covariance_fill c3), (setup_covariance_fill c4), (setup_covariance_fill c5),
    (setup_covariance_fill d1), (setup_covariance_fill d2),
    (setup_covariance_fill d3), (setup_covariance_fill d4), (setup_covariance_fill d5).
  rewrite A1, A2, A3, A4, A5, B1, B2, B3, B4, B5. reflexivity.
Qed.

End Initialisation.

(** ** The field-presence masks of HIGHRES_IMU *)

Lemma land_zero_iff (f m : Z) :
  Z.land f m = 0 <->
  forall i, 0 <= i -> Z.testbit m i = true -> Z.testbit f i = false.
Proof.
  split.
  - intros H i Hi Hm.
    pose proof (Z.land_spec f m i) as Hs. rewrite H, Z.bits_0, Hm in Hs.
    rewrite andb_true_r in Hs. congruence.
  - intros H. apply Z.bits_inj'. intros i Hi.
    rewrite Z.land_spec, Z.bits_0.
    destruct (Z.testbit m i) eqn:Hm; [|apply andb_false_r].
    rewrite (H i Hi Hm). reflexivity.
Qed.

Lemma testbit_range_dec (f lo n : Z) :
  0 <= n ->
  (exists i, lo <= i < lo + n /\ Z.testbit f i = true) \/
  (forall i, lo <= i < lo + n -> Z.testbit f i = false).
Proof.
  intros Hn. pattern n. apply natlike_ind; [right; intros; lia| |exact Hn].
  intros k Hk [(i & Hi & Hb)|IH].
  - left. exists i. split; [lia|exact Hb].
  - destruct (Z.testbit f (lo + k)) eqn:E.
    + left. exists (lo + k). split; [lia|exact E].
    + right. intros i Hi.
      destruct (Z.eq_dec i (lo + k)) as [->|Hne]; [exact E|apply IH; lia].
Qed.

(** A mask of [n] consecutive ones starting at bit [lo] tests whether any
    of these bits is set. *)
Lemma bits_set_range (f lo n : Z) :
  0 <= lo -> 0 <= n ->
  bits_set f (Z.shiftl (Z.ones n) lo) = true <->
  exists i, lo <= i < lo + n /\ Z.testbit f i = true.
Proof.
  intros Hlo Hn.
  assert (Hmask : forall i, 0 <= i ->
            (Z.testbit (Z.shiftl (Z.ones n) lo) i = true <-> lo <= i < lo + n)).
  { intros i Hi. rewrite Z.shiftl_spec by exact Hi.
    rewrite Z.ones_spec_iff by exact Hn. lia. }
  unfold bits_set. rewrite negb_true_iff, Z.eqb_neq. split.
  - intros Hnz. destruct (testbit_range_dec f lo n Hn) as [Hex|Hall]; [exact Hex|].
    exfalso. apply Hnz, land_zero_iff. intros i Hi Hm.
    apply Hall, Hmask; assumption.
  - intros (i & Hi & Hb) Hz.
    assert (Hf : Z.testbit f i = false).
    { apply (proj1 (land_zero_iff _ _) Hz); [lia|]. apply Hmask; [lia|exact Hi]. }
    congruence.
Qed.

(** X8: what the four field masks of [handle_highres_imu] test.  The
    acceleration and rate group is taken as present when any one of bits 0
    to 5 of [fields_updated] is set, the magnetometer group when any one
    of bits 6 to 8 is set, the pressure on bit 9 and the temperature on
    bit 12. *)
Theorem highres_field_masks (fields : Z) :
  (bits_set fields (Z.lor (Z.shiftl 7 3) (Z.shiftl 7 0)) = true <->
   exists i, 0 <= i < 6 /\ Z.testbit fields i = true) /\
  (bits_set fields (Z.shiftl 7 6) = true <->
   exists i, 6 <= i < 9 /\ Z.testbit fields i = true) /\
  bits_set fields (Z.shiftl 1 9) = Z.testbit fields 9 /\
  bits_set fields (Z.shiftl 1 12) = Z.testbit fields 12.
Proof.
  split; [|split; [|split]].
  - change (Z.lor (Z.shiftl 7 3) (Z.shiftl 7 0)) with (Z.shiftl (Z.ones 6) 0).
    rewrite bits_set_range by lia. reflexivity.
  - change (Z.shiftl 7 6) with (Z.shiftl (Z.ones 3) 6).
    rewrite bits_set_range by lia. reflexivity.
  - change (Z.shiftl 1 9) with (Z.shiftl (Z.ones 1) 9).
    pose proof (bits_set_range fields 9 1 ltac:(lia) ltac:(lia)) as H.
    destruct (bits_set fields (Z.shiftl (Z.ones 1) 9)).
    + destruct (proj1 H eq_refl) as (i & Hi & Hb).
      assert (i = 9) as -> by lia. by rewrite Hb.
    + destruct (Z.testbit fields 9) eqn:E; [|reflexivity].
      exfalso. assert (Hft : false = true); [|discriminate Hft].
      apply H. exists 9. split; [lia|exact E].
  - change (Z.shiftl 1 12) with (Z.shiftl (Z.ones 1) 12).
    pose proof (bits_set_range fields 12 1 ltac:(lia) ltac:(lia)) as H.
    destruct (bits_set fields (Z.shiftl (Z.ones 1) 12)).
    + destruct (proj1 H eq_refl) as (i & Hi & Hb).
      assert (i = 12) as -> by lia. by rewrite Hb.
    + destruct (Z.testbit fields 12) eqn:E; [|reflexivity].
      exfalso. assert (Hft : false = true); [|discriminate Hft].
      apply H. exists 12. split; [lia|exact E].
Qed.

(** ** Invariants of a run *)

(** Split a membership in an explicit effect list into its cases. *)
Ltac effect_cases H :=
  repeat (apply elem_of_cons in H as [H|H]);
  try (apply elem_of_nil in H; destruct H);
  try discriminate H.

Section Runs.
Context `{ftf : Ftf}.

(** Split every flag, mask test and firmware test a goal branches on. *)
Ltac split_guards :=
  repeat match goal with
         | |- context [bits_set ?f ?m] => destruct (bits_set f m); cbn
         | |- context [is_ardupilotmega ?u] => destruct (is_ardupilotmega u); cbn
         | |- context [if ?b then _ else _] => destruct b; cbn
         end.

Lemma run_cons_effects uas i (rest : list (UAS * Inbound)) p :
  effects_of (run ((uas, i) :: rest) p)
  = effects_of (deliver uas i p)
    ++ effects_of (run rest (state_of (deliver uas i p))).
Proof.
  cbn [run]. unfold effects_of, state_of, mbind, M_bind.
  destruct (deliver uas i p) as [[[] p1] out1]. cbn.
  destruct (run rest p1) as [[[] p2] out2]. reflexivity.
Qed.

Lemma deliver_keeps_configuration uas i p :
  configuration (state_of (deliver uas i p)) = configuration p.
Proof.
  destruct p as [fid hr sc q enu ned c1 c2 c3 c4 c5].
  destruct i; run_handler; split_guards; reflexivity.
Qed.

Lemma deliver_carries_covariances uas i p e :
  e ∈ effects_of (deliver uas i p) -> carries_covariances_of p e.
Proof.
  destruct p as [fid hr sc q enu ned c1 c2 c3 c4 c5].
  destruct i; run_handler; intros H.
  - destruct q; cbn in H; effect_cases H; subst e; cbn; auto.
  - destruct q; cbn in H; effect_cases H; subst e; cbn; auto.
  - destruct hr; cbn in H;
      repeat match type of H with
             | context [bits_set ?f ?k] => destruct (bits_set f k); cbn in H
             end;
      effect_cases H; subst e; cbn; auto.
  - destruct hr, sc; cbn in H; try (apply elem_of_nil in H; destruct H);
      destruct (is_ardupilotmega uas); cbn in H;
      effect_cases H; subst e; cbn; auto.
  - destruct hr; cbn in H; try (apply elem_of_nil in H; destruct H);
      destruct sc; cbn in H; effect_cases H; subst e; cbn; auto.
  - destruct hr; cbn in H; effect_cases H; subst e; cbn; auto.
  - apply elem_of_nil in H. destruct H.
Qed.

Lemma carries_covariances_of_configuration p p' e :
  configuration p' = configuration p ->
  carries_covariances_of p' e -> carries_covariances_of p e.
Proof.
  unfold configuration. intros Hc. injection Hc as _ H1 H2 H3 H4 H5.
  destruct e; cbn; rewrite ?H1, ?H2, ?H3, ?H4, ?H5; auto.
Qed.

(** X4: no delivery, message or connection change, writes the frame name
    or any of the five covariance arrays: after any run they are what
    they were at its start. *)
Theorem run_keeps_configuration (deliveries : list (UAS * Inbound)) (p : IMUPlugin) :
  let p' := state_of (run deliveries p) in
  frame_id p' = frame_id p /\
  linear_acceleration_cov p' = linear_acceleration_cov p /\
  angular_velocity_cov p' = angular_velocity_cov p /\
  orientation_cov p' = orientation_cov p /\
  unk_orientation_cov p' = unk_orientation_cov p /\
  magnetic_cov p' = magnetic_cov p.
Proof.
  cbv zeta.
  assert (Hc : configuration (state_of (run deliveries p)) = configuration p).
  { revert p. induction deliveries as [|[uas i] rest IH]; intros p; [reflexivity|].
    rewrite run_cons_state, IH. apply deliver_keeps_configuration. }
  unfold configuration in Hc. injection Hc as H0 H1 H2 H3 H4 H5. auto 10.
Qed.

Lemma deliver_non_inertial_keeps_cache uas i p :
  is_inertial i = false ->
  cached_linear_accel (state_of (deliver uas i p)) = cached_linear_accel p.
Proof.
  intros Hi. destruct p as [fid hr sc q enu ned c1 c2 c3 c4 c5].
  destruct i; try discriminate Hi; run_handler; split_guards; reflexivity.
Qed.

Lemma run_non_inertial_keeps_cache (deliveries : list (UAS * Inbound)) p :
  Forall (fun d => is_inertial d.2 = false) deliveries ->
  cached_linear_accel (state_of (run deliveries p)) = cached_linear_accel p.
Proof.
  intros Hall. revert p.
  induction Hall as [|[uas i] rest Hi _ IH]; intros p; [reflexivity|].
  rewrite run_cons_state, IH. by apply deliver_non_inertial_keeps_cache.
Qed.

(** X5: only the inertial messages write the cached acceleration pair: a
    run of ATTITUDE, ATTITUDE_QUATERNION and SCALED_PRESSURE messages and
    connection changes, accepted or not, leaves it as it was, so a
    reconnect does not clear it. *)
Theorem run_without_inertial_keeps_cache (deliveries : list (UAS * Inbound))
    (p : IMUPlugin) :
  Forall (fun d => is_inertial d.2 = false) deliveries ->
  cached_linear_accel (state_of (run deliveries p)) = cached_linear_accel p /\
  linear_accel_vec_enu (state_of (run deliveries p)) = linear_accel_vec_enu p /\
  linear_accel_vec_ned (state_of (run deliveries p)) = linear_accel_vec_ned p.
Proof.
  intros Hall.
  pose proof (run_non_inertial_keeps_cache deliveries p Hall) as Hc.
  split; [exact Hc|]. unfold cached_linear_accel in Hc. injection Hc as -> ->. auto.
Qed.

(** X6: every record dispatched in a run carries the covariance arrays the
    plugin had when the run started: the attitude records [orientation_cov],
    [angular_velocity_cov] and [linear_acceleration_cov], the data_raw
    records [unk_orientation_cov] in place of the first, the magnetic
    records [magnetic_cov]. *)
Theorem run_records_carry_covariances (deliveries : list (UAS * Inbound))
    (p : IMUPlugin) (e : Effect) :
  e ∈ effects_of (run deliveries p) -> carries_covariances_of p e.
Proof.
  revert p. induction deliveries as [|[uas i] rest IH]; intros p H.
  - apply elem_of_nil in H. destruct H.
  - rewrite run_cons_effects in H. apply elem_of_app in H as [H|H].
    + by apply (deliver_carries_covariances uas i).
    + apply (carries_covariances_of_configuration p (state_of (deliver uas i p)));
        [apply deliver_keeps_configuration|by apply IH].
Qed.

(** ** The HIGHRES_IMU handler *)

(** The whole result of [handle_highres_imu]: the log request when the
    flag was clear, then one record per group whose mask test holds. *)
Lemma handle_highres_imu_spec uas imu_hr p :
  let header :=
    synchronized_header uas (frame_id p) (usec (HIGHRES_IMU.time_usec imu_hr)) in
  let fields := HIGHRES_IMU.fields_updated imu_hr in
  let accel_ned :=
    mkVector3d (HIGHRES_IMU.xacc imu_hr) (HIGHRES_IMU.yacc imu_hr)
      (HIGHRES_IMU.zacc imu_hr) in
  let accel_enu := transform_frame_aircraft_baselink accel_ned in
  handle_highres_imu uas imu_hr p
  = (tt,
     (if bits_set fields (Z.lor (Z.shiftl 7 3) (Z.shiftl 7 0))
      then set_linear_accel_vec_ned accel_ned
             (set_linear_accel_vec_enu accel_enu (set_has_hr_imu true p))
      else set_has_hr_imu true p),
     (if has_hr_imu p then []
      else [ROS_INFO_NAMED "imu" "IMU: High resolution IMU detected!"])
     ++ (if bits_set fields (Z.lor (Z.shiftl 7 3) (Z.shiftl 7 0))
         then [imu_raw_pub_publish
                 {| imu_header := header;
                    orientation := Quaternion_default;
                    angular_velocity :=
                      transform_frame_aircraft_baselink
                        (mkVector3d (HIGHRES_IMU.xgyro imu_hr)
                           (HIGHRES_IMU.ygyro imu_hr) (HIGHRES_IMU.zgyro imu_hr));
                    linear_acceleration := accel_enu;
                    orientation_covariance := unk_orientation_cov p;
                    angular_velocity_covariance := angular_velocity_cov p;
                    linear_acceleration_covariance := linear_acceleration_cov p |}]
         else [])
     ++ (if bits_set fields (Z.shiftl 7 6)
         then [magn_pub_publish
                 {| magn_header := header;
                    magnetic_field :=
                      transform_frame_aircraft_baselink
                        (vscale (mkVector3d (HIGHRES_IMU.xmag imu_hr)
                                   (HIGHRES_IMU.ymag imu_hr) (HIGHRES_IMU.zmag imu_hr))
                           GAUSS_TO_TESLA);
                    magnetic_field_covariance := magnetic_cov p |}]
         else [])
     ++ (if bits_set fields (Z.shiftl 1 9)
         then [press_pub_publish
                 {| atmp_header := header;
                    fluid_pressure :=
                      (HIGHRES_IMU.abs_pressure imu_hr * MILLIBAR_TO_PASCAL)%float;
                    atmp_variance := 0%float |}]
         else [])
     ++ (if bits_set fields (Z.shiftl 1 12)
         then [temp_pub_publish
                 {| temp_header := header;
                    temperature := HIGHRES_IMU.temperature imu_hr;
                    temp_variance := 0%float |}]
         else [])).
Proof.
  cbv zeta. destruct p as [fid hr sc q enu ned c1 c2 c3 c4 c5]. run_handler.
  destruct hr; cbn;
    destruct (bits_set (HIGHRES_IMU.fields_updated imu_hr)
                (Z.lor (Z.shiftl 7 3) (Z.shiftl 7 0))); cbn;
    destruct (bits_set (HIGHRES_IMU.fields_updated imu_hr) (Z.shiftl 7 6)); cbn;
    destruct (bits_set (HIGHRES_IMU.fields_updated imu_hr) (Z.shiftl 1 9)); cbn;
    destruct (bits_set (HIGHRES_IMU.fields_updated imu_hr) (Z.shiftl 1 12)); cbn;
    reflexivity.
Qed.

(** X7: the four groups of a HIGHRES_IMU message are handled independently
    of one another and in a fixed order: the records dispatched are the
    data_raw record if the acceleration and rate mask test holds, then the
    magnetic record if the magnetometer test holds, then the pressure
    record (the pressure times 100) on bit 9, then the temperature record
    (the temperature as it is) on bit 12; at most four records, and the
    cached pair is written exactly when the first test holds. *)
Theorem highres_groups_independent (uas : UAS) (imu_hr : HIGHRES_IMU.t)
    (p : IMUPlugin) :
  let r := deliver uas (msg_HIGHRES_IMU imu_hr) p in
  let header :=
    synchronized_header uas (frame_id p) (usec (HIGHRES_IMU.time_usec imu_hr)) in
  let fields := HIGHRES_IMU.fields_updated imu_hr in
  let accel_ned :=
    mkVector3d (HIGHRES_IMU.xacc imu_hr) (HIGHRES_IMU.yacc imu_hr)
      (HIGHRES_IMU.zacc imu_hr) in
  let accel_enu := transform_frame_aircraft_baselink accel_ned in
  dispatched (effects_of r)
  = (if bits_set fields (Z.lor (Z.shiftl 7 3) (Z.shiftl 7 0))
     then [imu_raw_pub_publish
             {| imu_header := header;
                orientation := Quaternion_default;
                angular_velocity :=
                  transform_frame_aircraft_baselink
                    (mkVector3d (HIGHRES_IMU.xgyro imu_hr)
                       (HIGHRES_IMU.ygyro imu_hr) (HIGHRES_IMU.zgyro imu_hr));
                linear_acceleration := accel_enu;
                orientation_covariance := unk_orientation_cov p;
                angular_velocity_covariance := angular_velocity_cov p;
                linear_acceleration_covariance := linear_acceleration_cov p |}]
     else [])
    ++ (if bits_set fields (Z.shiftl 7 6)
        then [magn_pub_publish
                {| magn_header := header;
                   magnetic_field :=
                     transform_frame_aircraft_baselink
                       (vscale (mkVector3d (HIGHRES_IMU.xmag imu_hr)
                                  (HIGHRES_IMU.ymag imu_hr) (HIGHRES_IMU.zmag imu_hr))
                          GAUSS_TO_TESLA);
                   magnetic_field_covariance := magnetic_cov p |}]
        else [])
    ++ (if bits_set fields (Z.shiftl 1 9)
        then [press_pub_publish
                {| atmp_header := header;
                   fluid_pressure := (HIGHRES_IMU.abs_pressure imu_hr * 100.0)%float;
                   atmp_variance := 0%float |}]
        else [])
    ++ (if bits_set fields (Z.shiftl 1 12)
        then [temp_pub_publish
                {| temp_header := header;
                   temperature := HIGHRES_IMU.temperature imu_hr;
                   temp_variance := 0%float |}]
        else []) /\
  (length (dispatched (effects_of r)) <= 4)%nat /\
  cached_linear_accel (state_of r)
  = (if bits_set fields (Z.lor (Z.shiftl 7 3) (Z.shiftl 7 0))
     then (accel_enu, accel_ned) else cached_linear_accel p).
Proof.
  cbv zeta. cbn [deliver]. rewrite handle_highres_imu_spec.
  unfold effects_of, state_of. cbn [fst snd].
  destruct (has_hr_imu p);
    destruct (bits_set (HIGHRES_IMU.fields_updated imu_hr)
                (Z.lor (Z.shiftl 7 3) (Z.shiftl 7 0)));
    destruct (bits_set (HIGHRES_IMU.fields_updated imu_hr) (Z.shiftl 7 6));
    destruct (bits_set (HIGHRES_IMU.fields_updated imu_hr) (Z.shiftl 1 9));
    destruct (bits_set (HIGHRES_IMU.fields_updated imu_hr) (Z.shiftl 1 12));
    (split; [reflexivity|split; [cbn; lia|destruct p; reflexivity]]).
Qed.

(** X9: a HIGHRES_IMU message none of whose four mask tests holds
    dispatches no record and leaves the cached pair alone, yet it raises
    [has_hr_imu]: the SCALED_IMU, RAW_IMU and SCALED_PRESSURE messages that
    follow are dropped. *)
Theorem highres_without_fields_still_suppresses (uas uas' : UAS)
    (imu_hr : HIGHRES_IMU.t) (p : IMUPlugin) :
  let fields := HIGHRES_IMU.fields_updated imu_hr in
  bits_set fields (Z.lor (Z.shiftl 7 3) (Z.shiftl 7 0)) = false ->
  bits_set fields (Z.shiftl 7 6) = false ->
  bits_set fields (Z.shiftl 1 9) = false ->
  bits_set fields (Z.shiftl 1 12) = false ->
  let r := deliver uas (msg_HIGHRES_IMU imu_hr) p in
  dispatched (effects_of r) = [] /\
  cached_linear_accel (state_of r) = cached_linear_accel p /\
  has_hr_imu (state_of r) = true /\
  (forall m, dropped uas' (state_of r) (msg_SCALED_IMU m)) /\
  (forall m, dropped uas' (state_of r) (msg_RAW_IMU m)) /\
  (forall m, dropped uas' (state_of r) (msg_SCALED_PRESSURE m)).
Proof.
  intros fields H1 H2 H3 H4. subst fields. cbv zeta. cbn [deliver].
  rewrite handle_highres_imu_spec. rewrite H1, H2, H3, H4.
  unfold effects_of, state_of. cbn [fst snd].
  split; [destruct (has_hr_imu p); reflexivity|].
  split; [destruct p; reflexivity|].
  split; [destruct p; reflexivity|].
  split; [|split]; intros m; apply not_accepted_dropped; destruct p; reflexivity.
Qed.

(** X13: when each kind of message is dropped.  ATTITUDE exactly when
    [has_att_quat] is set; RAW_IMU exactly when [has_hr_imu] or
    [has_scaled_imu] is set; SCALED_IMU exactly when [has_hr_imu] is set;
    ATTITUDE_QUATERNION never.  HIGHRES_IMU has no guard, but it leaves no
    trace, as a dropped message does, exactly when [has_hr_imu] is already
    set and none of its four mask tests holds. *)
Theorem dropped_exactly_when (uas : UAS) (p : IMUPlugin) :
  (forall att, dropped uas p (msg_ATTITUDE att) <-> has_att_quat p = true) /\
  (forall att_q, ~ dropped uas p (msg_ATTITUDE_QUATERNION att_q)) /\
  (forall m, dropped uas p (msg_RAW_IMU m)
             <-> has_hr_imu p || has_scaled_imu p = true) /\
  (forall m, dropped uas p (msg_SCALED_IMU m) <-> has_hr_imu p = true) /\
  (forall m, dropped uas p (msg_HIGHRES_IMU m) <->
     has_hr_imu p = true /\
     bits_set (HIGHRES_IMU.fields_updated m) (Z.lor (Z.shiftl 7 3) (Z.shiftl 7 0)) = false /\
     bits_set (HIGHRES_IMU.fields_updated m) (Z.shiftl 7 6) = false /\
     bits_set (HIGHRES_IMU.fields_updated m) (Z.shiftl 1 9) = false /\
     bits_set (HIGHRES_IMU.fields_updated m) (Z.shiftl 1 12) = false).
Proof.
  assert (Hnil : forall (st st' : IMUPlugin) (e : Effect) (out : list Effect),
            (tt, st, e :: out) <> (tt, st', @nil Effect)).
  { intros st st' e out H. apply (f_equal snd) in H. discriminate H. }
  split; [|split; [|split; [|split]]].
  - intros att. split; [|apply handle_attitude_dropped].
    destruct p as [fid hr sc q enu ned c1 c2 c3 c4 c5].
    destruct q; [reflexivity|]. run_handler. intros H. by apply Hnil in H.
  - intros att_q. destruct p as [fid hr sc q enu ned c1 c2 c3 c4 c5].
    run_handler. destruct q; cbn; apply Hnil.
  - intros m. split; [|apply handle_raw_imu_dropped].
    destruct p as [fid hr sc q enu ned c1 c2 c3 c4 c5].
    destruct hr, sc; try reflexivity. run_handler.
    destruct (is_ardupilotmega uas); cbn; intros H; by apply Hnil in H.
  - intros m. split; [|apply handle_scaled_imu_dropped].
    destruct p as [fid hr sc q enu ned c1 c2 c3 c4 c5].
    destruct hr; [reflexivity|]. run_handler.
    destruct sc; cbn; intros H; by apply Hnil in H.
  - intros m. unfold dropped. cbn [deliver]. rewrite handle_highres_imu_spec.
    destruct p as [fid hr sc q enu ned c1 c2 c3 c4 c5]. cbn [has_hr_imu].
    destruct hr;
      destruct (bits_set (HIGHRES_IMU.fields_updated m)
                  (Z.lor (Z.shiftl 7 3) (Z.shiftl 7 0)));
      destruct (bits_set (HIGHRES_IMU.fields_updated m) (Z.shiftl 7 6));
      destruct (bits_set (HIGHRES_IMU.fields_updated m) (Z.shiftl 1 9));
      destruct (bits_set (HIGHRES_IMU.fields_updated m) (Z.shiftl 1 12));
      cbn; split;
      try (intros H; by apply Hnil in H);
      try (intros (? & ? & ? & ? & ?); discriminate);
      auto.
Qed.

(** ** RAW_IMU on APM firmware, and what follows a RAW_IMU elsewhere *)

(** X10: on APM firmware an accepted RAW_IMU message rotates the raw
    acceleration counts first and multiplies by [MILLIG_TO_MS2] after, in
    each frame on its own; it requests no warning, dispatches the data_raw
    record and then the magnetic record (the counts times
    [MILLIT_TO_TESLA], rotated), and leaves the scaled pair in the cache,
    not zeroed. *)
Theorem raw_imu_apm_scales_after_rotation (uas : UAS) (imu_raw : RAW_IMU.t)
    (p : IMUPlugin) :
  is_ardupilotmega uas = true ->
  accepted p (msg_RAW_IMU imu_raw) = true ->
  let counts :=
    mkVector3d (double_of_int (RAW_IMU.xacc imu_raw))
      (double_of_int (RAW_IMU.yacc imu_raw)) (double_of_int (RAW_IMU.zacc imu_raw)) in
  let accel_enu := vscale (transform_frame_aircraft_baselink counts) MILLIG_TO_MS2 in
  let accel_ned := vscale counts MILLIG_TO_MS2 in
  let r := deliver uas (msg_RAW_IMU imu_raw) p in
  exists m mag,
    effects_of r = [imu_raw_pub_publish m; magn_pub_publish mag] /\
    linear_acceleration m = accel_enu /\
    magnetic_field mag
    = transform_frame_aircraft_baselink
        (vscale (mkVector3d (double_of_int (RAW_IMU.xmag imu_raw))
                   (double_of_int (RAW_IMU.ymag imu_raw))
                   (double_of_int (RAW_IMU.zmag imu_raw))) 1000.0%float) /\
    cached_linear_accel (state_of r) = (accel_enu, accel_ned).
Proof.
  intros Hapm Hacc. cbv zeta. cbn [accepted] in Hacc.
  apply negb_true_iff, orb_false_iff in Hacc. destruct Hacc as [Hhr Hsc].
  destruct p as [fid hr sc q enu ned c1 c2 c3 c4 c5]. cbn in Hhr, Hsc. subst hr sc.
  run_handler. rewrite Hapm. cbn.
  eexists. eexists. repeat match goal with |- _ /\ _ => split end; reflexivity.
Qed.

(** X11: an attitude-bearing message accepted right after an accepted
    RAW_IMU message on firmware other than APM dispatches both records
    with the linear acceleration (0,0,0), whatever the RAW_IMU message
    held. *)
Theorem attitude_after_raw_not_apm_is_zero (uas1 uas2 : UAS) (imu_raw : RAW_IMU.t)
    (a : Inbound) (p : IMUPlugin) :
  is_ardupilotmega uas1 = false ->
  accepted p (msg_RAW_IMU imu_raw) = true ->
  is_attitude a = true ->
  accepted p a = true ->
  let p1 := state_of (deliver uas1 (msg_RAW_IMU imu_raw) p) in
  exists m_enu m_ned,
    dispatched (effects_of (deliver uas2 a p1))
    = [update_attitude_imu_enu m_enu; update_attitude_imu_ned m_ned;
       imu_pub_publish m_enu] /\
    linear_acceleration m_enu = Vector3d_Zero /\
    linear_acceleration m_ned = Vector3d_Zero.
Proof.
  intros Hapm Hacc Ha Hacc_a p1.
  pose proof Hacc as Hg. cbn [accepted] in Hg.
  apply negb_true_iff, orb_false_iff in Hg. destruct Hg as [Hhr Hsc].
  assert (Hp1 : p1 = set_linear_accel_vec_ned Vector3d_Zero
                       (set_linear_accel_vec_enu Vector3d_Zero
                          (state_of (deliver uas1 (msg_RAW_IMU imu_raw) p)))).
  { subst p1. cbn [deliver].
    rewrite (handle_raw_imu_not_apm uas1 imu_raw p Hapm Hhr Hsc).
    rewrite publish_imu_data_raw_spec. reflexivity. }
  assert (Hacc1 : accepted p1 a = true).
  { rewrite Hp1. cbn [deliver].
    rewrite (handle_raw_imu_not_apm uas1 imu_raw p Hapm Hhr Hsc).
    rewrite publish_imu_data_raw_spec.
    destruct a; try discriminate Ha; destruct p; exact Hacc_a. }
  destruct (attitude_records uas2 a p1 Ha Hacc1)
    as (m_enu & m_ned & H1 & _ & _ & H4 & H5 & _).
  exists m_enu, m_ned. split; [exact H1|].
  rewrite H4, H5, Hp1. split; reflexivity.
Qed.

(** ** The two attitude records as a pair *)

(** X12: the two records of an accepted attitude-bearing message describe
    one reading: the ENU orientation is the NED orientation taken through
    [transform_orientation_ned_enu] and then
    [transform_orientation_aircraft_baselink], the ENU rate is the NED
    rate through [transform_frame_aircraft_baselink]; the ENU header is
    stamped for the configured frame and the NED header for the frame
    named aircraft, from the same device time; the rate and acceleration
    covariances are the same in both.  For ATTITUDE_QUATERNION the NED
    orientation is (w,x,y,z) = (q1,q2,q3,q4), for ATTITUDE it is
    [quaternion_from_rpy] of roll, pitch and yaw. *)
Theorem attitude_pair_consistent (uas : UAS) (i : Inbound) (p : IMUPlugin) :
  is_attitude i = true -> accepted p i = true ->
  exists m_enu m_ned,
    dispatched (effects_of (deliver uas i p))
    = [update_attitude_imu_enu m_enu; update_attitude_imu_ned m_ned;
       imu_pub_publish m_enu] /\
    orientation m_enu
    = transform_orientation_aircraft_baselink
        (transform_orientation_ned_enu (orientation m_ned)) /\
    angular_velocity m_enu = transform_frame_aircraft_baselink (angular_velocity m_ned) /\
    angular_velocity_covariance m_enu = angular_velocity_covariance m_ned /\
    linear_acceleration_covariance m_enu = linear_acceleration_covariance m_ned /\
    match i with
    | msg_ATTITUDE att =>
        imu_header m_enu
        = synchronized_header uas (frame_id p) (boot_ms (ATTITUDE.time_boot_ms att)) /\
        imu_header m_ned
        = synchronized_header uas "aircraft" (boot_ms (ATTITUDE.time_boot_ms att)) /\
        orientation m_ned
        = quaternion_from_rpy (ATTITUDE.roll att) (ATTITUDE.pitch att) (ATTITUDE.yaw att) /\
        angular_velocity m_ned
        = mkVector3d (ATTITUDE.rollspeed att) (ATTITUDE.pitchspeed att)
            (ATTITUDE.yawspeed att)
    | msg_ATTITUDE_QUATERNION att_q =>
        imu_header m_enu
        = synchronized_header uas (frame_id p)
            (boot_ms (ATTITUDE_QUATERNION.time_boot_ms att_q)) /\
        imu_header m_ned
        = synchronized_header uas "aircraft"
            (boot_ms (ATTITUDE_QUATERNION.time_boot_ms att_q)) /\
        orientation m_ned
        = mkQuaterniond (ATTITUDE_QUATERNION.q1 att_q) (ATTITUDE_QUATERNION.q2 att_q)
            (ATTITUDE_QUATERNION.q3 att_q) (ATTITUDE_QUATERNION.q4 att_q) /\
        angular_velocity m_ned
        = mkVector3d (ATTITUDE_QUATERNION.rollspeed att_q)
            (ATTITUDE_QUATERNION.pitchspeed att_q)
            (ATTITUDE_QUATERNION.yawspeed att_q)
    | _ => True
    end.
Proof.
  destruct i as [att|att_q| | | | |]; try discriminate; intros _ Hacc;
    destruct p as [fid hr sc q enu ned c1 c2 c3 c4 c5].
  - cbn in Hacc. apply negb_true_iff in Hacc. subst q. run_handler.
    eexists. eexists. repeat match goal with |- _ /\ _ => split end; reflexivity.
  - run_handler. destruct q; cbn; eexists; eexists;
      (split; [reflexivity|]);
      repeat match goal with |- _ /\ _ => split end; reflexivity.
Qed.

(** ** Detection messages *)

Lemma info_count_app text (out1 out2 : list Effect) :
  info_count text (out1 ++ out2) = (info_count text out1 + info_count text out2)%nat.
Proof. unfold info_count. rewrite List.filter_app, length_app. reflexivity. Qed.

(** One delivery requests a detection message only when it raises the
    flag the message belongs to. *)
Lemma deliver_info_budget uas i p :
  is_connection_changed i = false ->
  let out := effects_of (deliver uas i p) in
  let p' := state_of (deliver uas i p) in
  (info_count "IMU: High resolution IMU detected!" out
   + Nat.b2n (negb (has_hr_imu p')) <= Nat.b2n (negb (has_hr_imu p)))%nat /\
  (info_count "IMU: Scaled IMU message used." out
   + Nat.b2n (negb (has_scaled_imu p')) <= Nat.b2n (negb (has_scaled_imu p)))%nat /\
  (info_count "IMU: Attitude quaternion IMU detected!" out
   + Nat.b2n (negb (has_att_quat p')) <= Nat.b2n (negb (has_att_quat p)))%nat.
Proof.
  intros Hi. destruct p as [fid hr sc q enu ned c1 c2 c3 c4 c5].
  destruct i; try discriminate Hi; run_handler; split_guards;
    repeat split; cbn; lia.
Qed.

(** X14: between two connection changes each detection message is
    requested at most once, however many messages of its kind arrive, and
    not at all when its flag is already set at the start. *)
Theorem detection_logged_once (deliveries : list (UAS * Inbound)) (p : IMUPlugin) :
  Forall (fun d => is_connection_changed d.2 = false) deliveries ->
  let out := effects_of (run deliveries p) in
  (info_count "IMU: High resolution IMU detected!" out
   <= Nat.b2n (negb (has_hr_imu p)))%nat /\
  (info_count "IMU: Scaled IMU message used." out
   <= Nat.b2n (negb (has_scaled_imu p)))%nat /\
  (info_count "IMU: Attitude quaternion IMU detected!" out
   <= Nat.b2n (negb (has_att_quat p)))%nat /\
  (info_count "IMU: High resolution IMU detected!" out <= 1)%nat /\
  (info_count "IMU: Scaled IMU message used." out <= 1)%nat /\
  (info_count "IMU: Attitude quaternion IMU detected!" out <= 1)%nat.
Proof.
  intros Hall. cbv zeta.
  assert (H : (info_count "IMU: High resolution IMU detected!"
                 (effects_of (run deliveries p))
               <= Nat.b2n (negb (has_hr_imu p)))%nat /\
              (info_count "IMU: Scaled IMU message used."
                 (effects_of (run deliveries p))
               <= Nat.b2n (negb (has_scaled_imu p)))%nat /\
              (info_count "IMU: Attitude quaternion IMU detected!"
                 (effects_of (run deliveries p))
               <= Nat.b2n (negb (has_att_quat p)))%nat).
  { revert p. induction Hall as [|[uas i] rest Hi _ IH]; intros p.
    - cbn. repeat split; lia.
    - cbn in Hi. rewrite run_cons_effects, !info_count_app.
      destruct (deliver_info_budget uas i p Hi) as (B1 & B2 & B3).
      destruct (IH (state_of (deliver uas i p))) as (I1 & I2 & I3).
      repeat split; lia. }
  destruct H as (H1 & H2 & H3).
  destruct (has_hr_imu p), (has_scaled_imu p), (has_att_quat p); cbn in *;
    repeat split; lia.
Qed.

End Runs.

(** ** Before the first inertial message *)

Section Startup.
Context `{ftf : Ftf} `{libm : Libm}.

Lemma initialize_keeps_cache (params : Params) (storage : IMUPlugin) :
  cached_linear_accel (state_of (initialize params (IMUPlugin_ctor storage)))
  = cached_linear_accel storage.
Proof.
  destruct storage as [fid hr sc q enu ned c1 c2 c3 c4 c5].
  unfold initialize, IMUPlugin_ctor, member, assign, state_of.
  unfold mbind, M_bind, mret, M_ret. cbn -[setup_covariance]. reflexivity.
Qed.

(** X15: neither the constructor nor [initialize] gives the cached
    acceleration vectors a value, so an attitude-bearing message accepted
    before any inertial message dispatches records whose linear
    acceleration is what the storage of the plugin held at construction. *)
Theorem attitude_before_inertial_carries_storage (params : Params)
    (storage : IMUPlugin) (earlier : list (UAS * Inbound)) (uas : UAS) (a : Inbound) :
  Forall (fun d => is_inertial d.2 = false) earlier ->
  let p := state_of (run earlier (state_of (initialize params (IMUPlugin_ctor storage)))) in
  is_attitude a = true -> accepted p a = true ->
  exists m_enu m_ned,
    dispatched (effects_of (deliver uas a p))
    = [update_attitude_imu_enu m_enu; update_attitude_imu_ned m_ned;
       imu_pub_publish m_enu] /\
    linear_acceleration m_enu = linear_accel_vec_enu storage /\
    linear_acceleration m_ned = linear_accel_vec_ned storage.
Proof.
  intros Hearlier p Ha Hacc.
  assert (Hc : cached_linear_accel p = cached_linear_accel storage).
  { subst p. rewrite (run_non_inertial_keeps_cache earlier _ Hearlier).
    apply initialize_keeps_cache. }
  unfold cached_linear_accel in Hc. injection Hc as He Hn.
  destruct (attitude_records uas a p Ha Hacc)
    as (m_enu & m_ned & H1 & _ & _ & H4 & H5 & _).
  exists m_enu, m_ned. split; [exact H1|]. split; congruence.
Qed.

(** ** The orientation covariance of the attitude records *)

Lemma run_configuration (deliveries : list (UAS * Inbound)) p :
  configuration (state_of (run deliveries p)) = configuration p.
Proof.
  revert p. induction deliveries as [|[uas i] rest IH]; intros p; [reflexivity|].
  rewrite run_cons_state, IH. apply deliver_keeps_configuration.
Qed.

(** [initialize] builds [orientation_cov] from the orientation deviation,
    the parameter or its default 1.0. *)
Lemma initialize_orientation_cov (params : Params) (storage : IMUPlugin) :
  arrays_sized storage ->
  orientation_cov (state_of (initialize params (IMUPlugin_ctor storage)))
  = setup_covariance (replicate 9 0%float)
      (param (param_orientation_stdev params) 1.0%float).
Proof.
  intros (_ & _ & H3 & _ & _).
  destruct storage as [fid hr sc q enu ned c1 c2 c3 c4 c5]. cbn in H3.
  unfold initialize, IMUPlugin_ctor, member, assign, state_of.
  unfold mbind, M_bind, mret, M_ret. cbn -[setup_covariance].
  rewrite (setup_covariance_fill c3), H3. reflexivity.
Qed.

(** The array [setup_covariance] builds is the unknown sentinel exactly
    when the deviation compares equal to 0.0: a diagonal array has the
    same entry at indices 0 and 4, the sentinel has -1 and 0 there. *)
Lemma setup_covariance_sentinel_iff (stdev : double) :
  setup_covariance (replicate 9 0%float) stdev
  = [(-1.0)%float; 0%float; 0%float; 0%float; 0%float; 0%float;
     0%float; 0%float; 0%float]
  <-> (stdev =? 0.0)%float = true.
Proof.
  unfold setup_covariance. cbn [replicate fmap list_fmap].
  destruct (stdev =? 0.0)%float.
  - split; reflexivity.
  - split; [|discriminate]. intros H. exfalso.
    pose proof (f_equal (fun c : Covariance3d => default 0%float (c !! 0%nat)) H) as H0.
    pose proof (f_equal (fun c : Covariance3d => default 0%float (c !! 4%nat)) H) as H4.
    cbn in H0, H4. rewrite H4 in H0.
    apply (f_equal (fun v => PrimFloat.eqb v 0%float)) in H0.
    vm_compute in H0. discriminate H0.
Qed.

(** C1, as the handler has it: for every accepted ATTITUDE or
    ATTITUDE_QUATERNION message both records, the NED/aircraft one as well
    as the ENU/base_link one, carry the configured orientation covariance
    [orientation_cov].  On a plugin that was constructed and initialised,
    whatever was delivered since, that is the array [setup_covariance]
    builds from the configured orientation deviation (default 1.0), so the
    NED/aircraft record carries the unknown sentinel exactly when that
    deviation compares equal to 0.0. *)
Theorem orientation_covariance_both_frames (uas : UAS) (i : Inbound) (p : IMUPlugin) :
  is_attitude i = true -> accepted p i = true ->
  exists m_enu m_ned,
    dispatched (effects_of (deliver uas i p))
    = [update_attitude_imu_enu m_enu; update_attitude_imu_ned m_ned;
       imu_pub_publish m_enu] /\
    orientation_covariance m_enu = orientation_cov p /\
    orientation_covariance m_ned = orientation_cov p /\
    (forall (params : Params) (storage : IMUPlugin) (earlier : list (UAS * Inbound)),
       arrays_sized storage ->
       p = state_of (run earlier (state_of (initialize params (IMUPlugin_ctor storage)))) ->
       let stdev := param (param_orientation_stdev params) 1.0%float in
       orientation_covariance m_enu = setup_covariance (replicate 9 0%float) stdev /\
       orientation_covariance m_ned = setup_covariance (replicate 9 0%float) stdev /\
       (orientation_covariance m_ned
        = [(-1.0)%float; 0%float; 0%float; 0%float; 0%float; 0%float;
           0%float; 0%float; 0%float]
        <-> (stdev =? 0.0)%float = true)).
Proof.
  intros Hi Hacc.
  destruct (attitude_records uas i p Hi Hacc)
    as (m_enu & m_ned & H1 & H2 & H3 & _).
  exists m_enu, m_ned. split; [exact H1|]. split; [exact H2|]. split; [exact H3|].
  intros params storage earlier Hsized Hp stdev.
  assert (Hcov : orientation_cov p = setup_covariance (replicate 9 0%float) stdev).
  { pose proof (run_configuration earlier
                  (state_of (initialize params (IMUPlugin_ctor storage)))) as Hc.
    rewrite <- Hp in Hc. unfold configuration in Hc.
    injection Hc as _ _ _ Ho _ _. rewrite Ho.
    by apply initialize_orientation_cov. }
  rewrite H2, H3, Hcov. split; [reflexivity|]. split; [reflexivity|].
  apply setup_covariance_sentinel_iff.
Qed.

End Startup.

(** * Closed instances

    The theorems above at the concrete collaborators of [Sample], and the
    inputs at which two sentences of the specification fail. *)

Section Instances.
Import Sample.
Local Existing Instance sample_ftf.
Local Existing Instance sample_libm.

Lemma dirty_storage_sized : arrays_sized dirty_storage.
Proof. repeat split. Qed.

Lemma setup_covariance_spec_witness :
  setup_covariance (replicate 9 0%float) 2.0%float
  = [4%float; 0%float; 0%float; 0%float; 4%float; 0%float;
     0%float; 0%float; 4%float] /\
  setup_covariance (replicate 9 0%float) 0.0%float
  = [(-1.0)%float; 0%float; 0%float; 0%float; 0%float; 0%float;
     0%float; 0%float; 0%float] /\
  setup_covariance (replicate 9 0%float) 0.5%float
  = [0.25%float; 0%float; 0%float; 0%float; 0.25%float; 0%float;
     0%float; 0%float; 0.25%float].
Proof.
  destruct (@setup_covariance_spec sample_libm (replicate 9 0%float)
              0.0%float eq_refl) as (Hzero & _ & _ & Htwo).
  destruct (@setup_covariance_spec sample_libm (replicate 9 0%float)
              0.5%float eq_refl) as (_ & Hhalf & _).
  split; [exact (Htwo eq_refl)|].
  split; [exact (Hzero eq_refl)|exact (Hhalf eq_refl)].
Defined.

Lemma arbitration_monotonicity_witness :
  dropped (sample_uas false)
    (state_of (run ((sample_uas false, msg_HIGHRES_IMU highres1) :: later) plugin0))
    (msg_SCALED_IMU scaled1) /\
  dropped (sample_uas false)
    (state_of (run ((sample_uas false, msg_HIGHRES_IMU highres1) :: later) plugin0))
    (msg_RAW_IMU raw1) /\
  dropped (sample_uas false)
    (state_of (run ((sample_uas false, msg_ATTITUDE_QUATERNION attitude_quaternion1)
                      :: later) plugin0))
    (msg_ATTITUDE attitude1) /\
  dropped (sample_uas false)
    (state_of (run ((sample_uas false, msg_SCALED_IMU scaled1) :: later) plugin0))
    (msg_RAW_IMU raw1).
Proof.
  assert (Hlater : Forall (fun d => is_connection_changed d.2 = false) later).
  { repeat constructor. }
  destruct (arbitration_monotonicity (sample_uas false) (sample_uas false)
              plugin0 later Hlater) as (Hhr & Hq & Hsc).
  destruct (Hhr highres1) as [H1 H2].
  split; [apply H1|]. split; [apply H2|]. split; [apply Hq|].
  apply Hsc. reflexivity.
Defined.

Lemma raw_imu_not_apm_publishes_then_zeroes_witness :
  exists m mag,
    effects_of (deliver (sample_uas false) (msg_RAW_IMU raw1) plugin0)
    = [imu_raw_pub_publish m;
       ROS_WARN_THROTTLE_NAMED 60 "imu"
         "IMU: linear acceleration on RAW_IMU known on APM only.";
       ROS_WARN_THROTTLE_NAMED 60 "imu"
         "IMU: ~imu/data_raw stores unscaled raw acceleration report.";
       magn_pub_publish mag] /\
    linear_acceleration m = mkVector3d 1%float (-2)%float (-3)%float /\
    cached_linear_accel
      (state_of (deliver (sample_uas false) (msg_RAW_IMU raw1) plugin0))
    = (Vector3d_Zero, Vector3d_Zero).
Proof.
  destruct (raw_imu_not_apm_publishes_then_zeroes (sample_uas false) raw1 plugin0
              eq_refl eq_refl) as (m & mag & _ & H2 & _ & H4 & H5).
  exists m, mag. split; [exact H4|]. split; [exact H2|exact H5].
Defined.

Lemma raw_imu_not_apm_zeroes_every_time_witness :
  let before := state_of (run [(sample_uas false, msg_RAW_IMU raw1)] plugin_dirty) in
  let saved :=
    publish_imu_data_raw
      (synchronized_header (sample_uas false) "base_link" (usec 3000000))
      (transform_frame_aircraft_baselink
         (vscale (mkVector3d 10 20 30)%float MILLIRS_TO_RADSEC))
      (mkVector3d 1 (-2) (-3))%float (mkVector3d 1 2 3)%float before in
  let done := deliver (sample_uas false) (msg_RAW_IMU raw1) before in
  cached_linear_accel plugin_dirty = (mkVector3d 7 8 9, mkVector3d 7 (-8) (-9))%float /\
  accepted before (msg_RAW_IMU raw1) = true /\
  cached_linear_accel (state_of saved)
  = (mkVector3d 1 (-2) (-3), mkVector3d 1 2 3)%float /\
  (exists m mag,
     linear_acceleration m = (mkVector3d 1 (-2) (-3))%float /\
     effects_of done
     = [imu_raw_pub_publish m;
        ROS_WARN_THROTTLE_NAMED 60 "imu"
          "IMU: linear acceleration on RAW_IMU known on APM only.";
        ROS_WARN_THROTTLE_NAMED 60 "imu"
          "IMU: ~imu/data_raw stores unscaled raw acceleration report.";
        magn_pub_publish mag]) /\
  cached_linear_accel (state_of done) = (Vector3d_Zero, Vector3d_Zero).
Proof.
  cbv zeta.
  destruct (raw_imu_not_apm_zeroes_every_time (sample_uas false) [raw1; raw1]
              plugin_dirty eq_refl eq_refl eq_refl 1%nat raw1 eq_refl)
    as (Hacc & Hsaved & (m & mag & _ & Hm & Hout) & _ & Hzero).
  split; [vm_compute; reflexivity|].
  split; [exact Hacc|].
  split; [exact Hsaved|].
  split; [exists m, mag; split; [exact Hm|exact Hout]|exact Hzero].
Defined.

Lemma orientation_covariance_both_frames_witness :
  let built params :=
    state_of (run later (state_of (initialize params (IMUPlugin_ctor dirty_storage)))) in
  (exists m_enu m_ned,
     dispatched (effects_of (deliver (sample_uas false)
                               (msg_ATTITUDE_QUATERNION attitude_quaternion1)
                               (built params_half)))
     = [update_attitude_imu_enu m_enu; update_attitude_imu_ned m_ned;
        imu_pub_publish m_enu] /\
     orientation_covariance m_ned
     = [0.25%float; 0%float; 0%float; 0%float; 0.25%float; 0%float;
        0%float; 0%float; 0.25%float] /\
     orientation_covariance m_ned
     <> [(-1.0)%float; 0%float; 0%float; 0%float; 0%float; 0%float;
         0%float; 0%float; 0%float]) /\
  (exists m_enu m_ned,
     dispatched (effects_of (deliver (sample_uas false)
                               (msg_ATTITUDE_QUATERNION attitude_quaternion1)
                               (built params_zero)))
     = [update_attitude_imu_enu m_enu; update_attitude_imu_ned m_ned;
        imu_pub_publish m_enu] /\
     orientation_covariance m_ned
     = [(-1.0)%float; 0%float; 0%float; 0%float; 0%float; 0%float;
        0%float; 0%float; 0%float]).
Proof.
  cbv zeta. split.
  - destruct (orientation_covariance_both_frames (sample_uas false)
                (msg_ATTITUDE_QUATERNION attitude_quaternion1)
                (state_of (run later (state_of (initialize params_half
                                                  (IMUPlugin_ctor dirty_storage)))))
                eq_refl eq_refl) as (m_enu & m_ned & H1 & _ & _ & Hinit).
    destruct (Hinit params_half dirty_storage later dirty_storage_sized eq_refl)
      as (_ & Hned & Hiff).
    exists m_enu, m_ned. split; [exact H1|]. split; [exact Hned|].
    intros Hs. apply Hiff in Hs. vm_compute in Hs. discriminate Hs.
  - destruct (orientation_covariance_both_frames (sample_uas false)
                (msg_ATTITUDE_QUATERNION attitude_quaternion1)
                (state_of (run later (state_of (initialize params_zero
                                                  (IMUPlugin_ctor dirty_storage)))))
                eq_refl eq_refl) as (m_enu & m_ned & H1 & _ & _ & Hinit).
    destruct (Hinit params_zero dirty_storage later dirty_storage_sized eq_refl)
      as (_ & _ & Hiff).
    exists m_enu, m_ned. split; [exact H1|]. apply Hiff. reflexivity.
Defined.

Lemma cache_correctness_witness :
  exists m_enu m_ned,
    dispatched
      (effects_of
         (deliver (sample_uas false) (msg_ATTITUDE attitude1)
            (state_of (deliver (sample_uas false) (msg_HIGHRES_IMU highres1) plugin0))))
    = [update_attitude_imu_enu m_enu; update_attitude_imu_ned m_ned;
       imu_pub_publish m_enu] /\
    linear_acceleration m_enu = mkVector3d 1%float 2%float 3%float /\
    linear_acceleration m_ned = mkVector3d 1%float (-2)%float (-3)%float.
Proof.
  assert (Hcache :
    cached_linear_accel
      (state_of (deliver (sample_uas false) (msg_HIGHRES_IMU highres1) plugin0))
    = (mkVector3d 1%float 2%float 3%float, mkVector3d 1%float (-2)%float (-3)%float)).
  { vm_compute. reflexivity. }
  destruct (cache_correctness (sample_uas false) (sample_uas false)
              (msg_HIGHRES_IMU highres1) (msg_ATTITUDE attitude1) plugin0
              (mkVector3d 1%float 2%float 3%float)
              (mkVector3d 1%float (-2)%float (-3)%float)
              eq_refl eq_refl Hcache eq_refl eq_refl)
    as (m_enu & m_ned & H1 & H2 & H3 & _).
  exists m_enu, m_ned. auto.
Defined.

(** C1 fails on the handler: with the default orientation deviation 1.0 an
    accepted ATTITUDE message gives the NED/aircraft record the covariance
    diag(1,1,1), the same as the ENU/base_link record, and not the unknown
    sentinel. *)
Lemma ned_orientation_covariance_not_sentinel :
  accepted plugin0 (msg_ATTITUDE attitude1) = true /\
  exists m_enu m_ned,
    dispatched (effects_of (deliver (sample_uas false) (msg_ATTITUDE attitude1) plugin0))
    = [update_attitude_imu_enu m_enu; update_attitude_imu_ned m_ned;
       imu_pub_publish m_enu] /\
    orientation_covariance m_ned
    = [1%float; 0%float; 0%float; 0%float; 1%float; 0%float;
       0%float; 0%float; 1%float] /\
    orientation_covariance m_ned
    <> [(-1.0)%float; 0%float; 0%float; 0%float; 0%float; 0%float;
        0%float; 0%float; 0%float].
Proof.
  split; [reflexivity|].
  eexists. eexists. split; [vm_compute; reflexivity|].
  split; [reflexivity|].
  intros H.
  apply (f_equal (fun c : Covariance3d =>
                    match c with
                    | x :: _ => PrimFloat.eqb x 1%float
                    | [] => false
                    end)) in H.
  vm_compute in H. discriminate H.
Qed.

(** C2 fails on the handler: the second accepted RAW_IMU message of a run
    on firmware other than APM saves its reading, (1,-2,-3) and (1,2,3),
    and then zeroes the cached pair again, with the two warnings requested
    again. *)
Lemma raw_imu_second_message_zeroes_again :
  let uas := sample_uas false in
  let p1 := state_of (deliver uas (msg_RAW_IMU raw1) plugin0) in
  let header := synchronized_header uas (frame_id p1) (usec (RAW_IMU.time_usec raw1)) in
  let gyro := transform_frame_aircraft_baselink
    (vscale (mkVector3d 10%float 20%float 30%float) MILLIRS_TO_RADSEC) in
  let accel_ned := mkVector3d 1%float 2%float 3%float in
  let accel_enu := mkVector3d 1%float (-2)%float (-3)%float in
  let saved := publish_imu_data_raw header gyro accel_enu accel_ned p1 in
  let second := deliver uas (msg_RAW_IMU raw1) p1 in
  accepted plugin0 (msg_RAW_IMU raw1) = true /\
  accepted p1 (msg_RAW_IMU raw1) = true /\
  cached_linear_accel (state_of saved) = (accel_enu, accel_ned) /\
  second
  = (tt,
     set_linear_accel_vec_ned Vector3d_Zero
       (set_linear_accel_vec_enu Vector3d_Zero (state_of saved)),
     effects_of saved
     ++ [ROS_WARN_THROTTLE_NAMED 60 "imu"
           "IMU: linear acceleration on RAW_IMU known on APM only.";
         ROS_WARN_THROTTLE_NAMED 60 "imu"
           "IMU: ~imu/data_raw stores unscaled raw acceleration report.";
         magn_pub_publish
           {| magn_header := header;
              magnetic_field :=
                transform_frame_aircraft_baselink
                  (vscale (mkVector3d 100%float 200%float 300%float) MILLIT_TO_TESLA);
              magnetic_field_covariance := magnetic_cov p1 |}]) /\
  cached_linear_accel (state_of second) = (Vector3d_Zero, Vector3d_Zero) /\
  cached_linear_accel (state_of second) <> cached_linear_accel (state_of saved).
Proof.
  cbv zeta.
  repeat match goal with |- _ /\ _ => split end; try (vm_compute; reflexivity).
  intros H.
  apply (f_equal (fun c : Vector3d * Vector3d => PrimFloat.eqb (vx c.1) 0%float)) in H.
  vm_compute in H. discriminate H.
Qed.

End Instances.

(** ** Closed instances of the further properties *)

Section FurtherInstances.
Import Sample.
Local Existing Instance sample_ftf.
Local Existing Instance sample_libm.

Lemma setup_covariance_overwrites_witness :
  setup_covariance (replicate 9 5%float) 0.5%float
  = setup_covariance (replicate 9 0%float) 0.5%float /\
  length (setup_covariance (replicate 9 5%float) 0.5%float) = 9%nat.
Proof.
  exact (setup_covariance_overwrites (replicate 9 5%float) (replicate 9 0%float)
           0.5%float eq_refl).
Defined.

Lemma initialize_configures_witness :
  unk_orientation_cov (state_of (initialize default_params (IMUPlugin_ctor dirty_storage)))
  = [(-1.0)%float; 0%float; 0%float; 0%float; 0%float; 0%float;
     0%float; 0%float; 0%float] /\
  has_hr_imu (state_of (initialize default_params (IMUPlugin_ctor dirty_storage)))
  = false /\
  cached_linear_accel
    (state_of (initialize default_params (IMUPlugin_ctor dirty_storage)))
  = (mkVector3d 7 8 9, mkVector3d 7 (-8) (-9))%float.
Proof.
  destruct (initialize_configures default_params dirty_storage dirty_storage_sized)
    as (_ & Hhr & _ & _ & _ & Hunk & _ & Hcache & _).
  split; [exact Hunk|]. split; [exact Hhr|exact Hcache].
Defined.

Lemma initialize_forgets_storage_witness :
  initialize default_params (IMUPlugin_ctor dirty_storage)
  = initialize default_params (IMUPlugin_ctor clean_storage).
Proof.
  apply (initialize_forgets_storage default_params dirty_storage clean_storage).
  - exact dirty_storage_sized.
  - repeat split.
  - reflexivity.
Defined.

Lemma run_without_inertial_keeps_cache_witness :
  cached_linear_accel
    (state_of (run [(sample_uas false, msg_ATTITUDE attitude1);
                    (sample_uas false, connection_changed true);
                    (sample_uas false, msg_SCALED_PRESSURE pressure1)]
                 (state_of (deliver (sample_uas false) (msg_HIGHRES_IMU highres1) plugin0))))
  = cached_linear_accel
      (state_of (deliver (sample_uas false) (msg_HIGHRES_IMU highres1) plugin0)).
Proof.
  apply run_without_inertial_keeps_cache. repeat constructor.
Defined.

Lemma run_records_carry_covariances_witness :
  Forall (carries_covariances_of plugin0)
    (effects_of (run ((sample_uas false, msg_HIGHRES_IMU highres1) :: later) plugin0)).
Proof.
  apply Forall_forall. intros e He.
  exact (run_records_carry_covariances _ plugin0 e He).
Defined.

Lemma highres_without_fields_still_suppresses_witness :
  dispatched (effects_of (deliver (sample_uas false) (msg_HIGHRES_IMU highres_empty) plugin0))
  = [] /\
  dropped (sample_uas false)
    (state_of (deliver (sample_uas false) (msg_HIGHRES_IMU highres_empty) plugin0))
    (msg_SCALED_PRESSURE pressure1).
Proof.
  destruct (highres_without_fields_still_suppresses (sample_uas false) (sample_uas false)
              highres_empty plugin0 eq_refl eq_refl eq_refl eq_refl)
    as (H1 & _ & _ & _ & _ & H6).
  split; [exact H1|apply H6].
Defined.

Lemma raw_imu_apm_scales_after_rotation_witness :
  exists m mag,
    effects_of (deliver (sample_uas true) (msg_RAW_IMU raw1) plugin0)
    = [imu_raw_pub_publish m; magn_pub_publish mag] /\
    linear_acceleration m
    = vscale (mkVector3d 1 (-2) (-3))%float MILLIG_TO_MS2 /\
    cached_linear_accel (state_of (deliver (sample_uas true) (msg_RAW_IMU raw1) plugin0))
    = (vscale (mkVector3d 1 (-2) (-3))%float MILLIG_TO_MS2,
       vscale (mkVector3d 1 2 3)%float MILLIG_TO_MS2).
Proof.
  destruct (raw_imu_apm_scales_after_rotation (sample_uas true) raw1 plugin0
              eq_refl eq_refl) as (m & mag & H1 & H2 & _ & H4).
  exists m, mag. split; [exact H1|]. split; [exact H2|exact H4].
Defined.

Lemma attitude_after_raw_not_apm_is_zero_witness :
  exists m_enu m_ned,
    dispatched
      (effects_of
         (deliver (sample_uas false) (msg_ATTITUDE attitude1)
            (state_of (deliver (sample_uas false) (msg_RAW_IMU raw1) plugin0))))
    = [update_attitude_imu_enu m_enu; update_attitude_imu_ned m_ned;
       imu_pub_publish m_enu] /\
    linear_acceleration m_enu = Vector3d_Zero /\
    linear_acceleration m_ned = Vector3d_Zero.
Proof.
  exact (attitude_after_raw_not_apm_is_zero (sample_uas false) (sample_uas false)
           raw1 (msg_ATTITUDE attitude1) plugin0 eq_refl eq_refl eq_refl eq_refl).
Defined.

Lemma attitude_pair_consistent_witness :
  exists m_enu m_ned,
    dispatched (effects_of (deliver (sample_uas false)
                              (msg_ATTITUDE_QUATERNION attitude_quaternion1) plugin0))
    = [update_attitude_imu_enu m_enu; update_attitude_imu_ned m_ned;
       imu_pub_publish m_enu] /\
    angular_velocity m_enu = transform_frame_aircraft_baselink (angular_velocity m_ned) /\
    header_frame_id (imu_header m_enu) = "base_link"%string /\
    header_frame_id (imu_header m_ned) = "aircraft"%string.
Proof.
  destruct (attitude_pair_consistent (sample_uas false)
              (msg_ATTITUDE_QUATERNION attitude_quaternion1) plugin0 eq_refl eq_refl)
    as (m_enu & m_ned & H1 & _ & H3 & _ & _ & H6 & H7 & _).
  exists m_enu, m_ned. split; [exact H1|]. split; [exact H3|].
  rewrite H6, H7. split; reflexivity.
Defined.

Lemma detection_logged_once_witness :
  (info_count "IMU: High resolution IMU detected!"
     (effects_of (run [(sample_uas false, msg_HIGHRES_IMU highres1);
                       (sample_uas false, msg_HIGHRES_IMU highres1);
                       (sample_uas false, msg_ATTITUDE_QUATERNION attitude_quaternion1);
                       (sample_uas false, msg_HIGHRES_IMU highres_empty)] plugin0))
   <= 1)%nat.
Proof.
  refine (proj1 (proj2 (proj2 (proj2
    (detection_logged_once
       [(sample_uas false, msg_HIGHRES_IMU highres1);
        (sample_uas false, msg_HIGHRES_IMU highres1);
        (sample_uas false, msg_ATTITUDE_QUATERNION attitude_quaternion1);
        (sample_uas false, msg_HIGHRES_IMU highres_empty)] plugin0 _))))).
  repeat constructor.
Defined.

Lemma attitude_before_inertial_carries_storage_witness :
  exists m_enu m_ned,
    dispatched
      (effects_of
         (deliver (sample_uas false) (msg_ATTITUDE attitude1)
            (state_of (run [(sample_uas false, connection_changed true)]
                         (state_of (initialize default_params
                                      (IMUPlugin_ctor dirty_storage)))))))
    = [update_attitude_imu_enu m_enu; update_attitude_imu_ned m_ned;
       imu_pub_publish m_enu] /\
    linear_acceleration m_enu = mkVector3d 7 8 9%float /\
    linear_acceleration m_ned = mkVector3d 7 (-8) (-9)%float.
Proof.
  assert (Hearlier : Forall (fun d : UAS * Inbound => is_inertial d.2 = false)
                       [(sample_uas false, connection_changed true)]).
  { repeat constructor. }
  exact (attitude_before_inertial_carries_storage default_params dirty_storage
           [(sample_uas false, connection_changed true)] (sample_uas false)
           (msg_ATTITUDE attitude1) Hearlier eq_refl eq_refl).
Defined.

End FurtherInstances.
